(** * angry_cat: the user views (user/views.py)

    A shallow embedding of the account handler [UserSignView] and of the
    Google login bridge [GoogleTokenView], with the user table as a finite
    map from primary keys to rows, the framework's exceptions as an error
    monad over the request's world, and every outbound effect (database
    query, identity-provider call, stdout) recorded in a log. *)

From stdpp Require Import base option list gmap fin_maps strings pretty.
From Stdlib Require Import ZArith Lia Ascii String.

Local Open Scope Z_scope.
Local Open Scope string_scope.

(** ** Data *)

(** A JSON scalar, as found in a request body, in the identity provider's
    profile and in a token's claims. *)
Inductive json : Type :=
  | JNull
  | JBool (b : bool)
  | JNum (n : Z)
  | JStr (s : string).

#[global] Instance json_eq_dec : EqDecision json.
Proof. solve_decision. Defined.

(** A Python dict with string keys: [request.data], [user_data], a token
    payload. *)
Abbreviation Dict := (gmap string json).

(** [d.get(key)]: [None] when the key is absent; a JSON null is Python's
    [None] too. *)
Definition dict_get (d : Dict) (key : string) : option json :=
  match d !! key with
  | Some JNull => None
  | o => o
  end.

(** [str(x)] as used by the f-string of the Authorization header. *)
Definition py_str (x : json) : string :=
  match x with
  | JNull => "None"
  | JBool true => "True"
  | JBool false => "False"
  | JNum n => pretty n
  | JStr s => s
  end.

(** A row of the user table; the primary key [id] is the key of the table. *)
Record User : Type := mkUser {
  username : string;
  email : string;
  password : string;      (* the stored hash *)
  is_active : bool;
  logintype : string;
}.

#[global] Instance User_eq_dec : EqDecision User.
Proof. solve_decision. Defined.

Abbreviation Table := (gmap Z User).

(** A model instance as the views hold it: the primary key and the fields. *)
Abbreviation Instance := (Z * User)%type.

(** [user.is_active = False] on a model instance. *)
Definition set_is_active (b : bool) (u : User) : User :=
  {| username := username u; email := email u; password := password u;
     is_active := b; logintype := logintype u |}.

(** [serializer.errors]: field name to messages. *)
Abbreviation Errors := (gmap string (list string)).

(** The queries the views and the validators issue. *)
Inductive Query : Type :=
  | ById (k : option Z)
  | ByEmail (e : string)
  | ByUsername (n : string).

(** What a request does to the outside. *)
Inductive Event : Type :=
  | EvSelect (q : Query)
  | EvInsert (k : Z) (u : User)
  | EvUpdate (k : Z) (u : User)
  | EvHttpGet (url : string) (authorization : string)
  | EvPrint (d : Dict).

Record World : Type := mkWorld {
  users : Table;
  log : list Event;
}.

Definition emit (ev : Event) (w : World) : World :=
  {| users := users w; log := log w ++ [ev] |}.

Definition set_users (t : Table) (w : World) : World :=
  {| users := t; log := log w |}.

(** ** The exception monad of a request *)

Inductive Exn : Type :=
  | Http404
  | DoesNotExist
  | MultipleObjectsReturned
  | AttributeError
  | IndexError
  | RequestException.

Inductive Result (A : Type) : Type :=
  | Ok (a : A)
  | Raise (e : Exn).
Arguments Ok {A} a.
Arguments Raise {A} e.

Definition M (A : Type) : Type := World → Result A * World.

Definition ret {A} (a : A) : M A := λ w, (Ok a, w).

Definition raise {A} (e : Exn) : M A := λ w, (Raise e, w).

Definition bind {A B} (m : M A) (f : A → M B) : M B :=
  λ w, match m w with
       | (Ok a, w') => f a w'
       | (Raise e, w') => (Raise e, w')
       end.

(** [try: m except: ...] with a bare [except], which catches everything. *)
Definition try_except {A} (m : M A) : M (Result A) :=
  λ w, let '(r, w') := m w in (Ok r, w').

Definition tell (ev : Event) : M unit := λ w, (Ok tt, emit ev w).

Notation "'let*' x ':=' m 'in' k" := (bind m (λ x, k))
  (at level 10, x pattern, m at level 100, k at level 200).
Notation "m ;;; k" := (bind m (λ _, k))
  (at level 100, right associativity).

(** ** Responses *)

Definition HTTP_200_OK : Z := 200.
Definition HTTP_201_CREATED : Z := 201.
Definition HTTP_400_BAD_REQUEST : Z := 400.
Definition HTTP_401_UNAUTHORIZED : Z := 401.
Definition HTTP_404_NOT_FOUND : Z := 404.
Definition HTTP_500_INTERNAL_SERVER_ERROR : Z := 500.

(** The serialized user record, password excluded. *)
Record UserData : Type := mkUserData {
  d_id : Z;
  d_username : string;
  d_email : string;
  d_is_active : bool;
  d_logintype : string;
}.

Inductive Body : Type :=
  | Message (m : string)
  | Detail (m : string)
  | FieldErrors (e : Errors)
  | UserRecord (d : UserData)
  | TokenPair (refresh access : string).

Record Response : Type := mkResponse {
  data : Body;
  status : Z;
}.

(** [Response(data, status=None)]: the framework's default status is 200. *)
Definition Response_ (b : Body) (st : option Z) : Response :=
  {| data := b; status := default HTTP_200_OK st |}.

(** What the framework makes of an exception that leaves a view. *)
Definition exception_handler (e : Exn) : Response :=
  match e with
  | Http404 => Response_ (Detail "Not found.") (Some HTTP_404_NOT_FOUND)
  | _ => Response_ (Detail "Server Error (500)")
           (Some HTTP_500_INTERNAL_SERVER_ERROR)
  end.

Definition run_view (m : M Response) (w : World) : Response * World :=
  match m w with
  | (Ok r, w') => (r, w')
  | (Raise e, w') => (exception_handler e, w')
  end.

(** The request as the views read it: [request.user.id] ([None] for the
    anonymous user) and [request.data]. *)
Record Request : Type := mkRequest {
  user_id_of : option Z;
  body : Dict;
}.

(** ** The platform

    What the views take from the framework and from the outside and do not
    compute themselves: the password hasher, the JWT codec, the shape
    constraints of the declarative schemas and the identity provider. *)
Class Platform : Type := {
  (** [django.contrib.auth.hashers] *)
  make_password : string → string;
  check_password : string → string → bool;
  (** The base64url segment of a claims dict, and the signature of the
      signing input. *)
  jwt_segment : Dict → string;
  jwt_signature : string → string;
  (** The claims a fresh token of the given type starts with (its type, its
      expiry, its identifier). *)
  token_defaults : string → Dict;
  (** The shape constraints of a schema (by schema name) on its input. *)
  field_errors : string → Dict → Errors;
  (** [requests.get(url, headers=...).json()] against the identity
      provider: [None] when the call or the decoding fails. *)
  userinfo : string → option Dict;
}.

Section Views.
Context `{Platform}.

(** ** The object-relational layer *)

Definition rows_where (P : User → Prop) `{∀ u, Decision (P u)}
    (t : Table) : list Instance :=
  map_to_list (filter (λ kv : Z * User, P kv.2) t).

(** [User.objects.get(email=e)] *)
Definition objects_get_email (e : string) : M Instance :=
  tell (EvSelect (ByEmail e)) ;;;
  λ w, match rows_where (λ u, email u = e) (users w) with
       | [] => raise DoesNotExist w
       | [kv] => ret kv w
       | _ => raise MultipleObjectsReturned w
       end.

(** [User.objects.get(id=k)]; a null key compares as [IS NULL], which no
    row of a primary-key column satisfies. *)
Definition objects_get_id (k : option Z) : M Instance :=
  tell (EvSelect (ById k)) ;;;
  λ w, match k with
       | None => raise DoesNotExist w
       | Some k =>
           match users w !! k with
           | Some u => ret (k, u) w
           | None => raise DoesNotExist w
           end
       end.

(** [get_object_or_404]: the lookup, with [DoesNotExist] turned into
    [Http404]. *)
Definition get_object_or_404 (m : M Instance) : M Instance :=
  λ w, match m w with
       | (Raise DoesNotExist, w') => (Raise Http404, w')
       | r => r
       end.

(** The key an insert receives: one more than the largest key in use. *)
Definition next_id (t : Table) : Z :=
  1 + foldr Z.max 0 ((map_to_list t).*1).

(** [Model.objects.create(...)] *)
Definition objects_create (u : User) : M Instance :=
  λ w, let k := next_id (users w) in
       (Ok (k, u), emit (EvInsert k u) (set_users (<[k := u]> (users w)) w)).

(** [instance.save()] of a row that was read from the table. *)
Definition instance_save (i : Instance) : M unit :=
  λ w, (Ok tt, emit (EvUpdate i.1 i.2) (set_users (<[i.1 := i.2]> (users w)) w)).

(** ** Session tokens (rest_framework_simplejwt) *)

Record Token : Type := mkToken { payload : Dict }.

(** [token[key] = value] *)
Definition token_setitem (key : string) (value : json) (t : Token) : Token :=
  {| payload := <[key := value]> (payload t) |}.

(** [RefreshToken.for_user(user)] *)
Definition RefreshToken_for_user (user : Instance) : Token :=
  token_setitem "user_id" (JNum user.1)
    {| payload := token_defaults "refresh" |}.

Definition no_copy_claims : list string := ["token_type"; "exp"; "jti"].

(** [refresh.access_token]: a fresh access token that takes over every claim
    of the refresh token outside [no_copy_claims]. *)
Definition access_token (refresh : Token) : Token :=
  {| payload :=
       filter (λ kv : string * json, kv.1 ∉ no_copy_claims) (payload refresh)
       ∪ token_defaults "access" |}.

Definition jose_header : Dict :=
  {[ "alg" := JStr "HS256"; "typ" := JStr "JWT" ]}.

(** [str(token)]: the compact serialization, three segments joined by
    dots. *)
Definition token_str (t : Token) : string :=
  let signing_input := jwt_segment jose_header ++ "." ++ jwt_segment (payload t) in
  signing_input ++ "." ++ jwt_signature signing_input.

(** ** Python strings *)

(** [s.split(sep)] for a separator of one character. *)
Fixpoint str_split (sep : ascii) (s : string) : list string :=
  match s with
  | EmptyString => [EmptyString]
  | String c s' =>
      if decide (c = sep) then EmptyString :: str_split sep s'
      else match str_split sep s' with
           | piece :: pieces => String c piece :: pieces
           | [] => [String c EmptyString]
           end
  end.

(** [l[i]] *)
Definition py_index {A} (l : list A) (i : nat) : M A :=
  match l !! i with
  | Some x => ret x
  | None => raise IndexError
  end.

(** ** The schemas (user/serializers.py) *)

Definition str_field (d : Dict) (key : string) : option string :=
  match d !! key with
  | Some (JStr s) => Some s
  | _ => None
  end.

Definition merge_errors (e1 e2 : Errors) : Errors :=
  union_with (λ a b : list string, Some (a ++ b)%list) e1 e2.

Definition required (key : string) (o : option string) : Errors :=
  match o with
  | Some _ => ∅
  | None => {[ key := ["This field is required."] ]}
  end.

(** Modelled from the spec: the uniqueness of [username] and of [email]
    across all rows (section 3), which user/serializers.py and
    user/models.py, absent from the sources, enforce. *)
Definition unique_errors (t : Table) (name mail : string) : Errors :=
  merge_errors
    (if decide (rows_where (λ u, username u = name) t = []) then ∅
     else {[ "username" := ["user with this username already exists."] ]})
    (if decide (rows_where (λ u, email u = mail) t = []) then ∅
     else {[ "email" := ["user with this email already exists."] ]}).

Record Credentials : Type := mkCredentials {
  v_username : string;
  v_email : string;
  v_password : string;
}.

(** Modelled from the spec: the sign-up schema [UserSerializer] of
    user/serializers.py, absent from the sources: field constraints,
    password confirmation match and uniqueness (section 4.1, Create). *)
Definition UserSerializer_validate (t : Table) (d : Dict)
    : Errors + Credentials :=
  match str_field d "username", str_field d "email",
        str_field d "password", str_field d "password2" with
  | Some name, Some mail, Some pw, Some pw2 =>
      let errs :=
        merge_errors (field_errors "UserSerializer" d)
          (merge_errors
             (if decide (pw = pw2) then ∅
              else {[ "password2" := ["The two passwords do not match."] ]})
             (unique_errors t name mail)) in
      if decide (errs = ∅) then inr (mkCredentials name mail pw)
      else inl errs
  | oname, omail, opw, opw2 =>
      inl (merge_errors (required "username" oname)
             (merge_errors (required "email" omail)
                (merge_errors (required "password" opw)
                   (required "password2" opw2))))
  end.

(** [serializer.is_valid()], with the queries of the uniqueness checks. *)
Definition UserSerializer_is_valid (d : Dict) : M (Errors + Credentials) :=
  tell (EvSelect (ByUsername (default "" (str_field d "username")))) ;;;
  tell (EvSelect (ByEmail (default "" (str_field d "email")))) ;;;
  λ w, ret (UserSerializer_validate (users w) d) w.

(** Modelled from the spec: [UserSerializer.save()] persists a new active,
    local-login user (section 4.1, Create) whose password is stored as a
    hash (section 3). *)
Definition UserSerializer_save (v : Credentials) : M Instance :=
  objects_create
    {| username := v_username v; email := v_email v;
       password := make_password (v_password v);
       is_active := true; logintype := "LOCAL" |}.

(** Modelled from the spec: [UserSerializer(user).data], the serialized
    record with the password excluded (section 4.1, Retrieve). *)
Definition UserSerializer_data (user : Instance) : UserData :=
  {| d_id := user.1; d_username := username user.2; d_email := email user.2;
     d_is_active := is_active user.2; d_logintype := logintype user.2 |}.

(** Modelled from the spec: the sign-out schema [UserSignOutSerializer] of
    user/serializers.py, absent from the sources: it validates the supplied
    password against the stored hash (section 4.1, Deactivate). *)
Definition UserSignOutSerializer_validate (user : Instance) (d : Dict)
    : Errors + unit :=
  match str_field d "password" with
  | Some pw =>
      if check_password pw (password user.2) then inr tt
      else inl {[ "password" := ["The password is incorrect."] ]}
  | None => inl (required "password" None)
  end.

(** Modelled from the spec: the provisioning schema [GoogleUserSerializer]
    of user/serializers.py, absent from the sources: field constraints and
    uniqueness (sections 3 and 4.2, step 4). *)
Definition GoogleUserSerializer_validate (t : Table) (d : Dict)
    : Errors + Credentials :=
  match str_field d "email", str_field d "username",
        str_field d "password" with
  | Some mail, Some name, Some pw =>
      let errs :=
        merge_errors (field_errors "GoogleUserSerializer" d)
          (unique_errors t name mail) in
      if decide (errs = ∅) then inr (mkCredentials name mail pw)
      else inl errs
  | omail, oname, opw =>
      inl (merge_errors (required "email" omail)
             (merge_errors (required "username" oname)
                (required "password" opw)))
  end.

Definition GoogleUserSerializer_is_valid (d : Dict)
    : M (Errors + Credentials) :=
  tell (EvSelect (ByUsername (default "" (str_field d "username")))) ;;;
  tell (EvSelect (ByEmail (default "" (str_field d "email")))) ;;;
  λ w, ret (GoogleUserSerializer_validate (users w) d) w.

(** Modelled from the spec: [GoogleUserSerializer.save()] provisions an
    active row with [logintype = GOOGLE] and the password stored as a hash
    (sections 3 and 4.2, step 4). *)
Definition GoogleUserSerializer_save (v : Credentials) : M Instance :=
  objects_create
    {| username := v_username v; email := v_email v;
       password := make_password (v_password v);
       is_active := true; logintype := "GOOGLE" |}.

(** ** UserSignView *)

(** [UserSignView.post]: sign-up. *)
Definition UserSignView_post (request : Request) : M Response :=
  let* serialized := UserSerializer_is_valid (body request) in
  match serialized with
  | inr validated =>
      UserSerializer_save validated ;;;
      ret (Response_ (Message "회원가입성공") (Some HTTP_201_CREATED))
  | inl errors =>
      ret (Response_ (FieldErrors errors) (Some HTTP_400_BAD_REQUEST))
  end.

(** [UserSignView.put]: deactivation. *)
Definition UserSignView_put (request : Request) : M Response :=
  let* user := get_object_or_404 (objects_get_id (user_id_of request)) in
  match UserSignOutSerializer_validate user (body request) with
  | inr _ =>
      let user := (user.1, set_is_active false user.2) in
      instance_save user ;;;
      ret (Response_ (Message "회원탈퇴성공") (Some HTTP_200_OK))
  | inl errors =>
      ret (Response_ (FieldErrors errors) (Some HTTP_400_BAD_REQUEST))
  end.

(** The truth value of [user_id]: [None] and [0] are false. *)
Definition truthy (user_id : option Z) : bool :=
  match user_id with
  | Some n => bool_decide (n ≠ 0)
  | None => false
  end.

(** [UserSignView.get]: retrieval, of [user_id] or of the caller. *)
Definition UserSignView_get (request : Request) (user_id : option Z)
    : M Response :=
  let user_id_ := if truthy user_id then user_id else user_id_of request in
  let* user := get_object_or_404 (objects_get_id user_id_) in
  ret (Response_ (UserRecord (UserSerializer_data user)) (Some HTTP_200_OK)).

(** ** GoogleTokenView *)

Definition userinfo_url : string :=
  "https://www.googleapis.com/oauth2/v2/userinfo".

(** [requests.get(url, headers=headers).json()] *)
Definition requests_get_json (url authorization : string) : M Dict :=
  tell (EvHttpGet url authorization) ;;;
  match userinfo authorization with
  | Some d => ret d
  | None => raise RequestException
  end.

(** [email.split("@")[0] + "_g"] *)
Definition synthesized_username (email : string) : M string :=
  let* local := py_index (str_split "@" email) 0 in
  ret (local ++ "_g").

(** The tail of [GoogleTokenView.post], from the login-type check on. *)
Definition issue_tokens (user : Instance) : M Response :=
  if decide (logintype user.2 ≠ "GOOGLE") then
    ret (Response_ (Message "소셜 로그인 이메일이 아닙니다.")
           (Some HTTP_400_BAD_REQUEST))
  else
    let refresh := RefreshToken_for_user user in
    let refresh := token_setitem "email" (JStr (email user.2)) refresh in
    let refresh := token_setitem "username" (JStr (username user.2)) refresh in
    let refresh := token_setitem "logintype" (JStr (logintype user.2)) refresh in
    ret (Response_ (TokenPair (token_str refresh)
                      (token_str (access_token refresh)))
           (Some HTTP_200_OK)).

(** The [try]/[except] of [GoogleTokenView.post]: the user of this email,
    provisioned when the lookup raises; [inl] is the early return of the
    [else] branch. *)
Definition resolve_user (email username password : string)
    : M (Response + Instance) :=
  let* found := try_except (objects_get_email email) in
  match found with
  | Ok user => ret (inr user)
  | Raise _ =>
      let* serializer :=
        GoogleUserSerializer_is_valid
          {[ "email" := JStr email; "username" := JStr username;
             "password" := JStr password ]} in
      match serializer with
      | inr validated =>
          GoogleUserSerializer_save validated ;;;
          let* user := get_object_or_404 (objects_get_email email) in
          ret (inr user)
      | inl errors => ret (inl (Response_ (FieldErrors errors) None))
      end
  end.

(** [GoogleTokenView.post]: the exchange of a Google access token for a
    token pair. *)
Definition GoogleTokenView_post (request : Request) : M Response :=
  match dict_get (body request) "access_token" with
  | None =>
      ret (Response_ (Message "토큰이 없습니다.") (Some HTTP_401_UNAUTHORIZED))
  | Some token =>
      let headers := "Bearer " ++ py_str token in
      let* user_data := requests_get_json userinfo_url headers in
      match dict_get user_data "email" with
      | None =>
          ret (Response_ (Message "유저정보에 접근할 수 없습니다.")
                 (Some HTTP_401_UNAUTHORIZED))
      | Some (JStr email) =>
          let* username := synthesized_username email in
          let password := "0000" in
          tell (EvPrint user_data) ;;;
          let* resolved := resolve_user email username password in
          match resolved with
          | inl response => ret response
          | inr user => issue_tokens user
          end
      | Some _ => raise AttributeError
      end
  end.

End Views.

(** ** UserSignView.patch

    The edit schema [UserEditSerializer] of user/serializers.py is not among
    the sources; the view is given over any schema, that is over its
    validation ([is_valid], which yields the errors or the validated data)
    and its [save]. *)
Section EditView.
Context {Validated : Type}.
Variable UserEditSerializer_is_valid : Instance → Dict → M (Errors + Validated).
Variable UserEditSerializer_save : Instance → Validated → M Instance.

(** [UserSignView.patch]: edit of the caller's own row. *)
Definition UserSignView_patch (request : Request) : M Response :=
  let* user := get_object_or_404 (objects_get_id (user_id_of request)) in
  let* serialized := UserEditSerializer_is_valid user (body request) in
  match serialized with
  | inr validated =>
      UserEditSerializer_save user validated ;;;
      ret (Response_ (Message "회원수정성공") (Some HTTP_200_OK))
  | inl errors =>
      ret (Response_ (FieldErrors errors) (Some HTTP_400_BAD_REQUEST))
  end.

End EditView.

(** ** Vocabulary of the statements *)

(** Whether a character occurs in a string. *)
Fixpoint has_char (c : ascii) (s : string) : bool :=
  match s with
  | EmptyString => false
  | String a s' => if decide (a = c) then true else has_char c s'
  end.

(** The longest prefix of a string that is free of the at sign. *)
Fixpoint local_part (s : string) : string :=
  match s with
  | EmptyString => EmptyString
  | String a s' =>
      if decide (a = "@"%char) then EmptyString else String a (local_part s')
  end.

(** The refresh token of [GoogleTokenView.post] once its three claims are
    set. *)
Definition session_refresh `{Platform} (user : Instance) : Token :=
  token_setitem "logintype" (JStr (logintype user.2))
    (token_setitem "username" (JStr (username user.2))
       (token_setitem "email" (JStr (email user.2))
          (RefreshToken_for_user user))).

(** The data [GoogleTokenView.post] hands to the provisioning schema. *)
Definition provisioning_data (mail : string) : Dict :=
  {[ "email" := JStr mail; "username" := JStr (local_part mail ++ "_g");
     "password" := JStr "0000" ]}.

(** The row the provisioning of an email is to create. *)
Definition provisioned_row `{Platform} (mail : string) : User :=
  {| username := local_part mail ++ "_g"; email := mail;
     password := make_password "0000";
     is_active := true; logintype := "GOOGLE" |}.

(** A token carries the email, username and login type of a row as claims. *)
Definition embeds (t : Token) (u : User) : Prop :=
  payload t !! "email" = Some (JStr (email u)) ∧
  payload t !! "username" = Some (JStr (username u)) ∧
  payload t !! "logintype" = Some (JStr (logintype u)).

(** The lookup by email finds exactly this row. *)
Definition resolves_to `{Platform} (t : Table) (mail : string) (user : Instance)
    : Prop :=
  rows_where (λ u, email u = mail) t = [user].


(** The calls to outside services that a log records: url and
    Authorization header. *)
Definition http_calls (l : list Event) : list (string * string) :=
  omap (λ ev, match ev with
              | EvHttpGet url authorization => Some (url, authorization)
              | _ => None
              end) l.

(** The Authorization header of the Google exchange. *)
Definition bearer (token : json) : string := "Bearer " ++ py_str token.

(** The world once the identity provider has been called, and once the
    profile has been printed as well. *)
Definition after_userinfo (token : json) (w : World) : World :=
  emit (EvHttpGet userinfo_url (bearer token)) w.

Definition after_print (token : json) (user_data : Dict) (w : World) : World :=
  emit (EvPrint user_data) (after_userinfo token w).

(** The world after a provisioning attempt that validation stopped, and
    after one that went through. *)
Definition after_rejection (mail : string) (w : World) : World :=
  emit (EvSelect (ByEmail mail))
    (emit (EvSelect (ByUsername (local_part mail ++ "_g")))
       (emit (EvSelect (ByEmail mail)) w)).

Definition after_provisioning `{Platform} (mail : string) (w : World) : World :=
  let k := next_id (users w) in
  let w3 := after_rejection mail w in
  emit (EvSelect (ByEmail mail))
    (emit (EvInsert k (provisioned_row mail))
       (set_users (<[k := provisioned_row mail]> (users w)) w3)).

(** The token response of the Google exchange for a user. *)
Definition token_response `{Platform} (user : Instance) : Response :=
  Response_ (TokenPair (token_str (session_refresh user))
               (token_str (access_token (session_refresh user))))
    (Some HTTP_200_OK).

(** Every way a Google exchange can end: the response and the final world,
    by the facts that lead there. *)
Inductive GoogleOutcome `{Platform} (request : Request) (w : World)
    : Response → World → Prop :=
  | GoogleNoToken :
      dict_get (body request) "access_token" = None →
      GoogleOutcome request w
        (Response_ (Message "토큰이 없습니다.") (Some HTTP_401_UNAUTHORIZED)) w
  | GoogleUnreachable token :
      dict_get (body request) "access_token" = Some token →
      userinfo (bearer token) = None →
      GoogleOutcome request w
        (exception_handler RequestException) (after_userinfo token w)
  | GoogleNoEmail token user_data :
      dict_get (body request) "access_token" = Some token →
      userinfo (bearer token) = Some user_data →
      dict_get user_data "email" = None →
      GoogleOutcome request w
        (Response_ (Message "유저정보에 접근할 수 없습니다.")
           (Some HTTP_401_UNAUTHORIZED))
        (after_userinfo token w)
  | GoogleOddEmail token user_data value :
      dict_get (body request) "access_token" = Some token →
      userinfo (bearer token) = Some user_data →
      dict_get user_data "email" = Some value →
      (∀ mail, value ≠ JStr mail) →
      GoogleOutcome request w
        (exception_handler AttributeError) (after_userinfo token w)
  | GoogleNotSocial token user_data mail user :
      dict_get (body request) "access_token" = Some token →
      userinfo (bearer token) = Some user_data →
      dict_get user_data "email" = Some (JStr mail) →
      resolves_to (users w) mail user →
      logintype user.2 ≠ "GOOGLE" →
      GoogleOutcome request w
        (Response_ (Message "소셜 로그인 이메일이 아닙니다.")
           (Some HTTP_400_BAD_REQUEST))
        (emit (EvSelect (ByEmail mail)) (after_print token user_data w))
  | GoogleLogin token user_data mail user :
      dict_get (body request) "access_token" = Some token →
      userinfo (bearer token) = Some user_data →
      dict_get user_data "email" = Some (JStr mail) →
      resolves_to (users w) mail user →
      logintype user.2 = "GOOGLE" →
      GoogleOutcome request w (token_response user)
        (emit (EvSelect (ByEmail mail)) (after_print token user_data w))
  | GoogleInvalid token user_data mail errs :
      dict_get (body request) "access_token" = Some token →
      userinfo (bearer token) = Some user_data →
      dict_get user_data "email" = Some (JStr mail) →
      (∀ user, ¬ resolves_to (users w) mail user) →
      GoogleUserSerializer_validate (users w) (provisioning_data mail)
        = inl errs →
      GoogleOutcome request w (Response_ (FieldErrors errs) None)
        (after_rejection mail (after_print token user_data w))
  | GoogleProvisioned token user_data mail :
      dict_get (body request) "access_token" = Some token →
      userinfo (bearer token) = Some user_data →
      dict_get user_data "email" = Some (JStr mail) →
      rows_where (λ u, email u = mail) (users w) = [] →
      GoogleUserSerializer_validate (users w) (provisioning_data mail)
        = inr (mkCredentials (local_part mail ++ "_g") mail "0000") →
      GoogleOutcome request w
        (token_response (next_id (users w), provisioned_row mail))
        (after_provisioning mail (after_print token user_data w)).

(** ** A concrete platform, for closed instances of the statements *)

Module Sample.

#[local] Instance platform : Platform := {|
  make_password pw := "pbkdf2$" ++ pw;
  check_password pw hash := bool_decide (hash = "pbkdf2$" ++ pw);
  jwt_segment d := "e30";
  jwt_signature s := "c2ln";
  token_defaults ty :=
    {[ "token_type" := JStr ty; "exp" := JNum 300; "jti" := JStr "0a1b" ]};
  field_errors _ _ := ∅;
  userinfo auth :=
    if decide (auth = "Bearer ya29.bob")
    then Some {[ "email" := JStr "bob@x.com" ]}
    else None;
|}.

Definition bob_y : User :=
  {| username := "bob_g"; email := "bob@y.com"; password := "pbkdf2$0000";
     is_active := true; logintype := "GOOGLE" |}.

Definition bob_local : User :=
  {| username := "bob"; email := "bob@x.com"; password := "pbkdf2$Pw123!";
     is_active := true; logintype := "LOCAL" |}.

Definition ann : User :=
  {| username := "ann"; email := "ann@x.com"; password := "pbkdf2$Pw123!";
     is_active := true; logintype := "LOCAL" |}.

Definition empty_world : World := {| users := ∅; log := [] |}.
Definition world_of (t : Table) : World := {| users := t; log := [] |}.

(** A table where another Google account already holds the username
    "bob_g", one where bob@x.com is a local account, and one with ann
    alone. *)
Definition taken_world : World := world_of {[ 1 := bob_y ]}.
Definition local_world : World := world_of {[ 1 := bob_local ]}.
Definition ann_world : World := world_of {[ 5 := ann ]}.

Definition bob_profile : Dict := {[ "email" := JStr "bob@x.com" ]}.

Definition username_taken : Errors :=
  {[ "username" := ["user with this username already exists."] ]}.

Definition passwords_differ : Errors :=
  {[ "password2" := ["The two passwords do not match."] ]}.

Definition ann_request (fields : Dict) : Request := mkRequest (Some 5) fields.

Definition ann_mistyped : Request :=
  mkRequest None
    {[ "username" := JStr "ann"; "email" := JStr "ann@x.com";
       "password" := JStr "Pw123!"; "password2" := JStr "Pw124!" ]}.

Definition google_request : Request :=
  mkRequest None {[ "access_token" := JStr "ya29.bob" ]}.

Definition ann_sign_up : Request :=
  mkRequest None
    {[ "username" := JStr "ann"; "email" := JStr "ann@x.com";
       "password" := JStr "Pw123!"; "password2" := JStr "Pw123!" ]}.

(** A table with a returning Google account, and one with two rows. *)
Definition bob_google : User :=
  {| username := "robert"; email := "bob@x.com"; password := "pbkdf2$0000";
     is_active := true; logintype := "GOOGLE" |}.

Definition google_world : World := world_of {[ 3 := bob_google ]}.
Definition two_world : World := world_of {[ 1 := bob_local; 5 := ann ]}.

(** An edit schema that rejects every input, and what it rejects it with. *)
Definition edit_rejected : Errors :=
  {[ "current_password" := ["The password is incorrect."] ]}.

Definition reject_edit (user : Instance) (d : Dict) : M (Errors + Dict) :=
  ret (inl edit_rejected).

Definition save_edit (user : Instance) (d : Dict) : M Instance := ret user.

(** A platform whose identity provider answers with a profile that lacks
    the email, one whose identity provider is down and one whose profile
    carries a number as email. *)
Definition with_userinfo (reply : option Dict) : Platform := {|
  make_password := make_password;
  check_password := check_password;
  jwt_segment := jwt_segment;
  jwt_signature := jwt_signature;
  token_defaults := token_defaults;
  field_errors := field_errors;
  userinfo _ := reply;
|}.

Definition bob_sign_up : Request :=
  mkRequest None
    {[ "username" := JStr "bob"; "email" := JStr "bob@x.com";
       "password" := JStr "Pw123!"; "password2" := JStr "Pw123!" ]}.

Definition null_token_request : Request :=
  mkRequest None {[ "access_token" := JNull ]}.

Definition stale_request : Request :=
  mkRequest None {[ "access_token" := JStr "ya29.stale" ]}.

Definition anonymous : Request := mkRequest None ∅.

End Sample.

(** * Properties *)

(** Runs the monadic plumbing of a view as far as the known facts allow. *)
Ltac monad_simpl :=
  repeat progress
    (cbv beta iota delta
       [bind ret raise tell try_except get_object_or_404 run_view];
     simpl).

Section Properties.
Context `{Platform}.

(** ** The object-relational layer *)

Lemma rows_where_nil (P : User → Prop) `{∀ u, Decision (P u)} (t : Table) :
  (∀ k u, t !! k = Some u → ¬ P u) → rows_where P t = [].
Proof.
  intros Hnone. unfold rows_where.
  apply map_to_list_empty_iff, map_empty_filter.
  intros k u Hk. simpl. by apply (Hnone k).
Qed.

Lemma rows_where_nil_inv (P : User → Prop) `{∀ u, Decision (P u)} (t : Table) k u :
  rows_where P t = [] → t !! k = Some u → ¬ P u.
Proof.
  unfold rows_where. intros Hnil Hk HP.
  apply map_to_list_empty_iff in Hnil.
  assert (filter (λ kv : Z * User, P kv.2) t !! k = Some u) as Hin
    by (by apply map_lookup_filter_Some).
  rewrite Hnil in Hin. by rewrite lookup_empty in Hin.
Qed.

Lemma rows_where_unique (P : User → Prop) `{∀ u, Decision (P u)} (t : Table) k u :
  t !! k = Some u → P u →
  (∀ k' u', t !! k' = Some u' → P u' → k' = k) →
  rows_where P t = [(k, u)].
Proof.
  intros Hk HP Huniq. unfold rows_where.
  assert (filter (λ kv : Z * User, P kv.2) t = {[ k := u ]}) as ->.
  { apply map_eq. intros j. destruct (decide (j = k)) as [->|Hne].
    - rewrite lookup_singleton_eq. by apply map_lookup_filter_Some.
    - rewrite lookup_singleton_ne by done.
      apply map_lookup_filter_None. right. intros u' Hj HP'.
      apply Hne. by eapply Huniq. }
  apply map_to_list_singleton.
Qed.

Lemma foldr_max_ge (l : list Z) (x : Z) : x ∈ l → (x ≤ foldr Z.max 0 l)%Z.
Proof.
  induction l as [|y l IH]; intros Hin.
  - by apply elem_of_nil in Hin.
  - apply elem_of_cons in Hin as [->|Hin]; simpl; [lia|].
    specialize (IH Hin). lia.
Qed.

Lemma next_id_fresh (t : Table) : t !! next_id t = None.
Proof.
  destruct (t !! next_id t) as [u|] eqn:Hk; [exfalso|done].
  apply elem_of_map_to_list in Hk.
  assert (next_id t ∈ (map_to_list t).*1) as Hin.
  { by apply (list_elem_of_fmap_2 fst _ (next_id t, u)). }
  apply foldr_max_ge in Hin. unfold next_id in Hin. lia.
Qed.

(** ** The schemas *)

Lemma merge_errors_empty (e1 e2 : Errors) :
  merge_errors e1 e2 = ∅ → e1 = ∅ ∧ e2 = ∅.
Proof.
  intros Hempty.
  assert (∀ key, e1 !! key = None ∧ e2 !! key = None) as Hkeys.
  { intros key.
    assert (merge_errors e1 e2 !! key = None) as Hkey
      by (by rewrite Hempty, lookup_empty).
    unfold merge_errors in Hkey. rewrite lookup_union_with in Hkey.
    by destruct (e1 !! key), (e2 !! key). }
  split; apply map_eq; intros key; rewrite lookup_empty; apply Hkeys.
Qed.

Lemma merge_errors_empty_l (e : Errors) : merge_errors ∅ e = e.
Proof.
  apply map_eq. intros key. unfold merge_errors.
  rewrite lookup_union_with, lookup_empty. by destruct (e !! key).
Qed.

Lemma unique_errors_empty (t : Table) (name mail : string) :
  unique_errors t name mail = ∅ →
  rows_where (λ u, username u = name) t = [] ∧
  rows_where (λ u, email u = mail) t = [].
Proof.
  unfold unique_errors. intros [Hname Hmail]%merge_errors_empty.
  split.
  - destruct (decide (rows_where (λ u, username u = name) t = [])); [done|].
    by apply map_non_empty_singleton in Hname.
  - destruct (decide (rows_where (λ u, email u = mail) t = [])); [done|].
    by apply map_non_empty_singleton in Hmail.
Qed.

Lemma str_field_Some (d : Dict) (key s : string) :
  d !! key = Some (JStr s) → str_field d key = Some s.
Proof. unfold str_field. by intros ->. Qed.

Lemma str_field_inv (d : Dict) (key s : string) :
  str_field d key = Some s → d !! key = Some (JStr s).
Proof.
  unfold str_field. destruct (d !! key) as [[]|]; try done. by intros [= ->].
Qed.

(** What a successful sign-up validation says about its input. *)
Lemma UserSerializer_validate_inr (t : Table) (d : Dict) (v : Credentials) :
  UserSerializer_validate t d = inr v →
  d !! "username" = Some (JStr (v_username v)) ∧
  d !! "email" = Some (JStr (v_email v)) ∧
  d !! "password" = Some (JStr (v_password v)) ∧
  d !! "password2" = Some (JStr (v_password v)) ∧
  field_errors "UserSerializer" d = ∅ ∧
  (∀ k u, t !! k = Some u → username u ≠ v_username v) ∧
  (∀ k u, t !! k = Some u → email u ≠ v_email v).
Proof.
  unfold UserSerializer_validate.
  destruct (str_field d "username") as [name|] eqn:Hname;
    destruct (str_field d "email") as [mail|] eqn:Hmail;
    destruct (str_field d "password") as [pw|] eqn:Hpw;
    destruct (str_field d "password2") as [pw2|] eqn:Hpw2; try done.
  case_decide as Herrs; [|done]. intros [= <-]. simpl.
  apply merge_errors_empty in Herrs as [Hshape Herrs].
  apply merge_errors_empty in Herrs as [Hmatch Huniq].
  apply unique_errors_empty in Huniq as [Huname Humail].
  destruct (decide (pw = pw2)) as [<-|];
    [|by apply map_non_empty_singleton in Hmatch].
  split_and!; try (by apply str_field_inv); try done.
  - intros k u Hk. by eapply (rows_where_nil_inv (λ u, username u = name)).
  - intros k u Hk. by eapply (rows_where_nil_inv (λ u, email u = mail)).
Qed.

(** A failed validation always carries errors. *)
Lemma required_None_non_empty (key : string) : required key None ≠ ∅.
Proof. apply map_non_empty_singleton. Qed.

Lemma UserSignOutSerializer_validate_inl (user : Instance) (d : Dict) (errs : Errors) :
  UserSignOutSerializer_validate user d = inl errs → errs ≠ ∅.
Proof.
  unfold UserSignOutSerializer_validate.
  destruct (str_field d "password") as [pw|].
  - destruct (check_password pw (password user.2)); [done|].
    intros [= <-]. apply map_non_empty_singleton.
  - intros [= <-]. apply required_None_non_empty.
Qed.

(** ** Python strings *)

Lemma str_split_head (s : string) :
  str_split "@" s !! 0%nat = Some (local_part s).
Proof.
  induction s as [|c s IH]; simpl; [done|].
  destruct (decide (c = "@"%char)); [done|].
  destruct (str_split "@" s) as [|piece pieces]; simpl in *; [done|].
  by injection IH as ->.
Qed.

Lemma local_part_prefix (pre rest : string) :
  has_char "@" pre = false → local_part (pre ++ "@" ++ rest) = pre.
Proof.
  induction pre as [|c pre IH]; simpl; [done|].
  destruct (decide (c = "@"%char)); [done|].
  intros Hpre. by rewrite IH.
Qed.

Lemma local_part_whole (s : string) :
  has_char "@" s = false → local_part s = s.
Proof.
  induction s as [|c s IH]; simpl; [done|].
  destruct (decide (c = "@"%char)); [done|].
  intros Hs. by rewrite IH.
Qed.

Lemma synthesized_username_local_part (mail : string) (w : World) :
  synthesized_username mail w = (Ok (local_part mail ++ "_g"), w).
Proof.
  unfold synthesized_username, py_index, bind.
  by rewrite str_split_head.
Qed.

(** C9. The username the Google exchange synthesizes is the part of the
    email before its first at sign, followed by "_g"; for an email with no
    at sign it is the whole email followed by "_g". In neither case does the
    indexing of the split raise. *)
Theorem synthesized_username_before_first_at :
  (∀ (pre rest : string) (w : World),
     has_char "@" pre = false →
     synthesized_username (pre ++ "@" ++ rest) w = (Ok (pre ++ "_g"), w)) ∧
  (∀ (mail : string) (w : World),
     has_char "@" mail = false →
     synthesized_username mail w = (Ok (mail ++ "_g"), w)).
Proof.
  split.
  - intros pre rest w Hpre.
    by rewrite synthesized_username_local_part, local_part_prefix.
  - intros mail w Hmail.
    by rewrite synthesized_username_local_part, local_part_whole.
Qed.

(** ** UserSignView.get *)

Lemma UserSignView_get_found (request : Request) (user_id : option Z) (w : World) k u :
  (if truthy user_id then user_id else user_id_of request) = Some k →
  users w !! k = Some u →
  run_view (UserSignView_get request user_id) w =
    (Response_ (UserRecord (UserSerializer_data (k, u))) (Some HTTP_200_OK),
     emit (EvSelect (ById (Some k))) w).
Proof.
  intros Hkey Hk.
  unfold UserSignView_get, objects_get_id. rewrite Hkey.
  monad_simpl. by rewrite Hk.
Qed.


(** C7, at the identifier 0. A retrieve request that supplies the identifier
    0, which resolves to no row, by a caller whose own row exists, is
    answered with status 200 and the caller's record: the identifier is
    tested for truth, so 0 counts as not supplied. *)
Theorem UserSignView_get_zero_returns_caller
    (request : Request) (w : World) (caller : Z) (u : User) :
  users w !! 0 = None →
  user_id_of request = Some caller →
  users w !! caller = Some u →
  run_view (UserSignView_get request (Some 0)) w =
    (Response_ (UserRecord (UserSerializer_data (caller, u))) (Some HTTP_200_OK),
     emit (EvSelect (ById (Some caller))) w).
Proof.
  intros _ Hcaller Hrow. by apply UserSignView_get_found.
Qed.

(** C10. A retrieve request without an identifier by the anonymous caller
    looks the null id up, is answered with status 404 and no user record,
    and leaves the table as it was. *)
Theorem UserSignView_get_anonymous_not_found (request : Request) (w : World) :
  user_id_of request = None →
  run_view (UserSignView_get request None) w =
    (Response_ (Detail "Not found.") (Some HTTP_404_NOT_FOUND),
     emit (EvSelect (ById None)) w)
  ∧ status (run_view (UserSignView_get request None) w).1 = 404
  ∧ users (run_view (UserSignView_get request None) w).2 = users w.
Proof.
  intros Hanon.
  unfold UserSignView_get, objects_get_id. simpl. rewrite Hanon.
  by monad_simpl.
Qed.

(** ** UserSignView.post *)

(** C6. Sign-up: when the input passes validation, which includes the
    match of password and confirmation and the uniqueness of username and
    email, one new active local-login row is persisted under a fresh key
    and the answer is status 201 with the success message; when validation
    fails, the answer is status 400 with the field errors and the table is
    as it was. *)
Theorem UserSignView_post_sign_up (request : Request) (w : World) :
  (∀ v : Credentials,
     UserSerializer_validate (users w) (body request) = inr v →
     body request !! "password" = body request !! "password2" ∧
     (∀ k u, users w !! k = Some u →
             username u ≠ v_username v ∧ email u ≠ v_email v) ∧
     body request !! "username" = Some (JStr (v_username v)) ∧
     body request !! "email" = Some (JStr (v_email v)) ∧
     body request !! "password" = Some (JStr (v_password v)) ∧
     ∃ w',
       run_view (UserSignView_post request) w =
         (Response_ (Message "회원가입성공") (Some HTTP_201_CREATED), w') ∧
       status (run_view (UserSignView_post request) w).1 = 201 ∧
       users w !! next_id (users w) = None ∧
       users w' =
         <[next_id (users w) :=
             {| username := v_username v; email := v_email v;
                password := make_password (v_password v);
                is_active := true; logintype := "LOCAL" |}]> (users w)) ∧
  (∀ errs : Errors,
     UserSerializer_validate (users w) (body request) = inl errs →
     ∃ w',
       run_view (UserSignView_post request) w =
         (Response_ (FieldErrors errs) (Some HTTP_400_BAD_REQUEST), w') ∧
       status (run_view (UserSignView_post request) w).1 = 400 ∧
       users w' = users w).
Proof.
  split.
  - intros v Hvalid.
    destruct (UserSerializer_validate_inr _ _ _ Hvalid)
      as (Hname & Hmail & Hpw & Hpw2 & _ & Huname & Humail).
    split; [by rewrite Hpw, Hpw2|].
    split; [intros k u Hk; split; eauto|].
    do 3 (split; [done|]).
    unfold UserSignView_post, UserSerializer_is_valid, UserSerializer_save,
      objects_create.
    monad_simpl. rewrite Hvalid. monad_simpl.
    eexists. split; [reflexivity|]. simpl.
    repeat split. apply next_id_fresh.
  - intros errs Hinvalid.
    unfold UserSignView_post, UserSerializer_is_valid.
    monad_simpl. rewrite Hinvalid. monad_simpl.
    eexists. split; [reflexivity|]. by simpl.
Qed.

(** ** UserSignView.put *)

(** C4. Deactivation by an authenticated caller whose row exists and whose
    supplied password matches the stored hash: the answer is status 200 with
    the success message, the caller's row is still in the table with
    is_active false and every other field as before, and no other row is
    touched. *)
Theorem UserSignView_put_deactivates
    (request : Request) (w : World) (caller : Z) (u : User) (pw : string) :
  user_id_of request = Some caller →
  users w !! caller = Some u →
  body request !! "password" = Some (JStr pw) →
  check_password pw (password u) = true →
  ∃ w',
    run_view (UserSignView_put request) w =
      (Response_ (Message "회원탈퇴성공") (Some HTTP_200_OK), w') ∧
    status (run_view (UserSignView_put request) w).1 = 200 ∧
    users w' = <[caller := set_is_active false u]> (users w) ∧
    (∃ u', users w' !! caller = Some u' ∧
           is_active u' = false ∧
           username u' = username u ∧ email u' = email u ∧
           password u' = password u ∧ logintype u' = logintype u) ∧
    (∀ k, k ≠ caller → users w' !! k = users w !! k) ∧
    dom (users w') = dom (users w).
Proof.
  intros Hcaller Hrow Hpw%str_field_Some Hmatch.
  unfold UserSignView_put, objects_get_id, instance_save,
    UserSignOutSerializer_validate.
  rewrite Hcaller. monad_simpl. rewrite Hrow. monad_simpl.
  rewrite Hpw. simpl. rewrite Hmatch. monad_simpl.
  eexists. split; [reflexivity|]. simpl.
  split; [done|]. split; [done|]. split; [|split].
  - exists (set_is_active false u). by rewrite lookup_insert_eq.
  - intros k Hk. by rewrite lookup_insert_ne.
  - apply dom_insert_lookup_L. by exists u.
Qed.

(** C5. Deactivation with a supplied password that does not match the
    stored hash: the answer is status 400 with validation errors, and the
    table, hence the caller's row and its is_active flag, is as it was. *)
Theorem UserSignView_put_wrong_password
    (request : Request) (w : World) (caller : Z) (u : User) (pw : string) :
  user_id_of request = Some caller →
  users w !! caller = Some u →
  body request !! "password" = Some (JStr pw) →
  check_password pw (password u) = false →
  ∃ errs w',
    run_view (UserSignView_put request) w =
      (Response_ (FieldErrors errs) (Some HTTP_400_BAD_REQUEST), w') ∧
    status (run_view (UserSignView_put request) w).1 = 400 ∧
    errs ≠ ∅ ∧
    users w' = users w ∧
    users w' !! caller = Some u.
Proof.
  intros Hcaller Hrow Hpw%str_field_Some Hmatch.
  unfold UserSignView_put, objects_get_id, UserSignOutSerializer_validate.
  rewrite Hcaller. monad_simpl. rewrite Hrow. monad_simpl.
  rewrite Hpw. simpl. rewrite Hmatch. monad_simpl.
  do 2 eexists. split; [reflexivity|]. simpl.
  repeat split; [apply map_non_empty_singleton|done].
Qed.

(** ** Session tokens *)

Lemma token_str_non_empty (t : Token) : token_str t ≠ "".
Proof.
  unfold token_str.
  by destruct (jwt_segment jose_header ++ "." ++ jwt_segment (payload t)).
Qed.

Lemma session_refresh_embeds (user : Instance) :
  embeds (session_refresh user) user.2.
Proof. unfold embeds, session_refresh. simpl. by simplify_map_eq. Qed.

Lemma access_token_copies (refresh : Token) (claim : string) (value : json) :
  claim ∉ no_copy_claims →
  payload refresh !! claim = Some value →
  payload (access_token refresh) !! claim = Some value.
Proof.
  intros Hcopy Hclaim. unfold access_token. simpl.
  rewrite lookup_union_l'; [|eexists]; by apply map_lookup_filter_Some.
Qed.

Lemma access_token_embeds (refresh : Token) (u : User) :
  embeds refresh u → embeds (access_token refresh) u.
Proof.
  intros (Hemail & Hname & Htype).
  split_and!; (apply access_token_copies; [|done]);
    unfold no_copy_claims; intros Hin;
    repeat (apply elem_of_cons in Hin as [?|Hin]; [done|]);
    by apply elem_of_nil in Hin.
Qed.

Lemma issue_tokens_google (user : Instance) (w : World) :
  logintype user.2 = "GOOGLE" →
  issue_tokens user w =
    (Ok (Response_ (TokenPair (token_str (session_refresh user))
                      (token_str (access_token (session_refresh user))))
           (Some HTTP_200_OK)), w).
Proof.
  intros Hgoogle. unfold issue_tokens.
  by destruct (decide (logintype user.2 ≠ "GOOGLE")).
Qed.

Lemma issue_tokens_not_google (user : Instance) (w : World) :
  logintype user.2 ≠ "GOOGLE" →
  issue_tokens user w =
    (Ok (Response_ (Message "소셜 로그인 이메일이 아닙니다.")
           (Some HTTP_400_BAD_REQUEST)), w).
Proof.
  intros Hlocal. unfold issue_tokens.
  by destruct (decide (logintype user.2 ≠ "GOOGLE")).
Qed.

(** ** GoogleTokenView.post *)

(** The view up to the lookup by email, for a request that carries a token
    and a profile that carries an email. *)
Lemma GoogleTokenView_post_profile
    (request : Request) (w : World) (token : json) (user_data : Dict)
    (mail : string) :
  dict_get (body request) "access_token" = Some token →
  userinfo ("Bearer " ++ py_str token) = Some user_data →
  dict_get user_data "email" = Some (JStr mail) →
  GoogleTokenView_post request w =
    (let* resolved := resolve_user mail (local_part mail ++ "_g") "0000" in
     match resolved with
     | inl response => ret response
     | inr user => issue_tokens user
     end)
      (emit (EvPrint user_data)
         (emit (EvHttpGet userinfo_url ("Bearer " ++ py_str token)) w)).
Proof.
  intros Htoken Hprofile Hmail.
  unfold GoogleTokenView_post, requests_get_json. rewrite Htoken.
  unfold bind at 1. unfold bind at 1. unfold tell at 1.
  rewrite Hprofile. unfold ret at 1. rewrite Hmail.
  unfold bind at 1. rewrite synthesized_username_local_part.
  unfold bind at 1. by unfold tell at 1.
Qed.

Lemma objects_get_email_found (t : World) (mail : string) (user : Instance) :
  resolves_to (users t) mail user →
  objects_get_email mail t = (Ok user, emit (EvSelect (ByEmail mail)) t).
Proof.
  unfold resolves_to, objects_get_email. intros Hrows.
  monad_simpl. by rewrite Hrows.
Qed.

Lemma objects_get_email_raises (t : World) (mail : string) :
  (∀ user, ¬ resolves_to (users t) mail user) →
  ∃ e, objects_get_email mail t = (Raise e, emit (EvSelect (ByEmail mail)) t).
Proof.
  unfold resolves_to, objects_get_email. intros Hrows. monad_simpl.
  destruct (rows_where (λ u, email u = mail) (users t)) as [|kv [|kv' rows]];
    [by eexists| by destruct (Hrows kv) | by eexists].
Qed.

Lemma provisioning_data_fields (mail : string) :
  str_field (provisioning_data mail) "email" = Some mail ∧
  str_field (provisioning_data mail) "username" = Some (local_part mail ++ "_g") ∧
  str_field (provisioning_data mail) "password" = Some "0000".
Proof. unfold str_field, provisioning_data. by simplify_map_eq. Qed.

Lemma GoogleUserSerializer_validate_inr (t : Table) (mail : string) (v : Credentials) :
  GoogleUserSerializer_validate t (provisioning_data mail) = inr v →
  v = mkCredentials (local_part mail ++ "_g") mail "0000".
Proof.
  unfold GoogleUserSerializer_validate.
  destruct (provisioning_data_fields mail) as (-> & -> & ->).
  case_decide; [|done]. by intros [= <-].
Qed.

Lemma GoogleUserSerializer_validate_inl (t : Table) (mail : string) (errs : Errors) :
  GoogleUserSerializer_validate t (provisioning_data mail) = inl errs →
  errs ≠ ∅.
Proof.
  unfold GoogleUserSerializer_validate.
  destruct (provisioning_data_fields mail) as (-> & -> & ->).
  case_decide; [done|]. by intros [= <-].
Qed.

Lemma resolve_user_found (w : World) (mail : string) (user : Instance) :
  resolves_to (users w) mail user →
  resolve_user mail (local_part mail ++ "_g") "0000" w =
    (Ok (inr user), emit (EvSelect (ByEmail mail)) w).
Proof.
  intros Hfound. unfold resolve_user, bind at 1, try_except.
  by rewrite (objects_get_email_found _ _ _ Hfound).
Qed.

Lemma resolve_user_invalid (w : World) (mail : string) (errs : Errors) :
  (∀ user, ¬ resolves_to (users w) mail user) →
  GoogleUserSerializer_validate (users w) (provisioning_data mail) = inl errs →
  ∃ w',
    resolve_user mail (local_part mail ++ "_g") "0000" w =
      (Ok (inl (Response_ (FieldErrors errs) None)), w') ∧
    users w' = users w.
Proof.
  intros [e Hraise]%objects_get_email_raises Hinvalid.
  unfold resolve_user, bind at 1, try_except. rewrite Hraise.
  unfold GoogleUserSerializer_is_valid. fold (provisioning_data mail).
  monad_simpl. rewrite Hinvalid. monad_simpl.
  eexists. by split.
Qed.

Lemma resolve_user_provisioned (w : World) (mail : string) (v : Credentials) :
  (∀ k u, users w !! k = Some u → email u ≠ mail) →
  GoogleUserSerializer_validate (users w) (provisioning_data mail) = inr v →
  ∃ w',
    resolve_user mail (local_part mail ++ "_g") "0000" w =
      (Ok (inr (next_id (users w), provisioned_row mail)), w') ∧
    users w' = <[next_id (users w) := provisioned_row mail]> (users w).
Proof.
  intros Hnew Hvalid.
  assert (∀ user, ¬ resolves_to (users w) mail user) as Hnone.
  { intros user. unfold resolves_to.
    by rewrite (rows_where_nil (λ u, email u = mail)). }
  destruct (objects_get_email_raises _ _ Hnone) as [e Hraise].
  pose proof (GoogleUserSerializer_validate_inr _ _ _ Hvalid) as ->.
  unfold resolve_user, bind at 1, try_except. rewrite Hraise.
  unfold GoogleUserSerializer_is_valid, GoogleUserSerializer_save,
    objects_create, objects_get_email.
  fold (provisioning_data mail).
  monad_simpl. rewrite Hvalid. monad_simpl.
  fold (provisioned_row mail).
  rewrite (rows_where_unique (λ u, email u = mail) _
             (next_id (users w)) (provisioned_row mail)).
  - eexists. by split.
  - apply lookup_insert_eq.
  - done.
  - intros k' u' Hk' Hmail'.
    destruct (decide (k' = next_id (users w))) as [|Hne]; [done|].
    rewrite lookup_insert_ne in Hk' by done. by destruct (Hnew k' u').
Qed.

(** C1, amended. A Google exchange whose profile carries an email that no
    row has, and whose provisioning validation succeeds, persists exactly
    one new row under a fresh key (username: the local part of the email
    followed by "_g"; password: the hash of the fixed placeholder "0000";
    logintype GOOGLE; active) and answers with status 200 and a refresh and
    an access token, both non-empty and both embedding the row's email,
    username and logintype as claims. *)
Theorem GoogleTokenView_post_provisions
    (request : Request) (w : World) (token : json) (user_data : Dict)
    (mail : string) (v : Credentials) :
  dict_get (body request) "access_token" = Some token →
  userinfo ("Bearer " ++ py_str token) = Some user_data →
  dict_get user_data "email" = Some (JStr mail) →
  rows_where (λ u, email u = mail) (users w) = [] →
  GoogleUserSerializer_validate (users w) (provisioning_data mail) = inr v →
  ∃ (w' : World) (refresh access : Token),
    run_view (GoogleTokenView_post request) w =
      (Response_ (TokenPair (token_str refresh) (token_str access))
         (Some HTTP_200_OK), w') ∧
    status (run_view (GoogleTokenView_post request) w).1 = 200 ∧
    users w !! next_id (users w) = None ∧
    users w' = <[next_id (users w) := provisioned_row mail]> (users w) ∧
    username (provisioned_row mail) = local_part mail ++ "_g" ∧
    password (provisioned_row mail) = make_password "0000" ∧
    logintype (provisioned_row mail) = "GOOGLE" ∧
    token_str refresh ≠ "" ∧ token_str access ≠ "" ∧
    embeds refresh (provisioned_row mail) ∧
    embeds access (provisioned_row mail).
Proof.
  intros Htoken Hprofile Hmail Hrows Hvalid.
  assert (∀ k u, users w !! k = Some u → email u ≠ mail) as Hnew.
  { intros k u. by apply (rows_where_nil_inv (λ u, email u = mail)). }
  set (w1 := emit (EvPrint user_data)
               (emit (EvHttpGet userinfo_url ("Bearer " ++ py_str token)) w)).
  destruct (resolve_user_provisioned w1 mail v Hnew Hvalid) as (w' & Hres & Hw').
  set (user := (next_id (users w), provisioned_row mail)).
  exists w', (session_refresh user), (access_token (session_refresh user)).
  assert (run_view (GoogleTokenView_post request) w =
            (Response_ (TokenPair (token_str (session_refresh user))
                          (token_str (access_token (session_refresh user))))
               (Some HTTP_200_OK), w')) as Hrun.
  { unfold run_view.
    rewrite (GoogleTokenView_post_profile _ _ _ _ _ Htoken Hprofile Hmail).
    fold w1. unfold bind at 1. rewrite Hres. cbv beta iota.
    by rewrite issue_tokens_google. }
  rewrite Hrun. split_and!; try done.
  - apply next_id_fresh.
  - apply token_str_non_empty.
  - apply token_str_non_empty.
  - apply (session_refresh_embeds user).
  - apply access_token_embeds, (session_refresh_embeds user).
Qed.

(** C2. A Google exchange whose email resolves to a row whose logintype is
    not GOOGLE is answered with status 400 and a message, no token pair, and
    the table is as it was. *)
Theorem GoogleTokenView_post_local_account
    (request : Request) (w : World) (token : json) (user_data : Dict)
    (mail : string) (user : Instance) :
  dict_get (body request) "access_token" = Some token →
  userinfo ("Bearer " ++ py_str token) = Some user_data →
  dict_get user_data "email" = Some (JStr mail) →
  resolves_to (users w) mail user →
  logintype user.2 ≠ "GOOGLE" →
  ∃ w' : World,
    run_view (GoogleTokenView_post request) w =
      (Response_ (Message "소셜 로그인 이메일이 아닙니다.")
         (Some HTTP_400_BAD_REQUEST), w') ∧
    status (run_view (GoogleTokenView_post request) w).1 = 400 ∧
    (∀ refresh access,
       data (run_view (GoogleTokenView_post request) w).1
         ≠ TokenPair refresh access) ∧
    users w' = users w.
Proof.
  intros Htoken Hprofile Hmail Hfound Hlocal.
  set (w' := emit (EvSelect (ByEmail mail))
               (emit (EvPrint user_data)
                  (emit (EvHttpGet userinfo_url ("Bearer " ++ py_str token)) w))).
  exists w'.
  assert (run_view (GoogleTokenView_post request) w =
            (Response_ (Message "소셜 로그인 이메일이 아닙니다.")
               (Some HTTP_400_BAD_REQUEST), w')) as Hrun.
  { unfold run_view.
    rewrite (GoogleTokenView_post_profile _ _ _ _ _ Htoken Hprofile Hmail).
    unfold bind at 1. rewrite (resolve_user_found _ _ user) by done.
    cbv beta iota. by rewrite issue_tokens_not_google. }
  rewrite Hrun. by split_and!.
Qed.

(** C3. A Google exchange in which the lookup by email does not find
    exactly one row and so raises, so that provisioning is attempted, and
    in which the provisioning validation fails, is
    answered with the validation errors under the default status 200; no
    token pair is issued and the table is as it was. *)
Theorem GoogleTokenView_post_provisioning_invalid
    (request : Request) (w : World) (token : json) (user_data : Dict)
    (mail : string) (errs : Errors) :
  dict_get (body request) "access_token" = Some token →
  userinfo ("Bearer " ++ py_str token) = Some user_data →
  dict_get user_data "email" = Some (JStr mail) →
  List.length (rows_where (λ u, email u = mail) (users w)) ≠ 1%nat →
  GoogleUserSerializer_validate (users w) (provisioning_data mail) = inl errs →
  ∃ w' : World,
    run_view (GoogleTokenView_post request) w =
      (Response_ (FieldErrors errs) None, w') ∧
    status (run_view (GoogleTokenView_post request) w).1 = 200 ∧
    errs ≠ ∅ ∧
    (∀ refresh access,
       data (run_view (GoogleTokenView_post request) w).1
         ≠ TokenPair refresh access) ∧
    users w' = users w.
Proof.
  intros Htoken Hprofile Hmail Hrows Hinvalid.
  assert (∀ user, ¬ resolves_to (users w) mail user) as Hnone.
  { intros user Hfound. unfold resolves_to in Hfound.
    by rewrite Hfound in Hrows. }
  set (w1 := emit (EvPrint user_data)
               (emit (EvHttpGet userinfo_url ("Bearer " ++ py_str token)) w)).
  destruct (resolve_user_invalid w1 mail errs Hnone Hinvalid) as (w' & Hres & Hw').
  assert (run_view (GoogleTokenView_post request) w =
            (Response_ (FieldErrors errs) None, w')) as Hrun.
  { unfold run_view.
    rewrite (GoogleTokenView_post_profile _ _ _ _ _ Htoken Hprofile Hmail).
    fold w1. unfold bind at 1. by rewrite Hres. }
  exists w'. rewrite Hrun. split_and!; try done.
  by eapply GoogleUserSerializer_validate_inl.
Qed.

(** C8. A Google exchange request whose body has no access_token field is
    answered with status 401, and the world is left as it was: nothing is
    added to the log, so the identity provider is not called and the user
    table is neither queried nor written. *)
Theorem GoogleTokenView_post_no_token (request : Request) (w : World) :
  body request !! "access_token" = None →
  run_view (GoogleTokenView_post request) w =
    (Response_ (Message "토큰이 없습니다.") (Some HTTP_401_UNAUTHORIZED), w)
  ∧ status (run_view (GoogleTokenView_post request) w).1 = 401.
Proof.
  intros Hnone. unfold GoogleTokenView_post, dict_get.
  by rewrite Hnone.
Qed.

End Properties.

(** * Further properties of the views *)

Section Outcomes.
Context `{Platform}.

(** ** The Google exchange, case by case *)

Lemma resolves_to_lookup (t : Table) (mail : string) (user : Instance) :
  resolves_to t mail user → t !! user.1 = Some user.2 ∧ email user.2 = mail.
Proof.
  unfold resolves_to, rows_where. intros Hrows.
  assert (user ∈ map_to_list (filter (λ kv : Z * User, email kv.2 = mail) t))
    as Hin by (rewrite Hrows; apply list_elem_of_here).
  destruct user as [k u]. apply elem_of_map_to_list in Hin.
  by apply map_lookup_filter_Some in Hin.
Qed.

Lemma resolves_to_insert_fresh (t : Table) (mail : string) (k : Z) (u : User) :
  rows_where (λ u, email u = mail) t = [] →
  email u = mail →
  resolves_to (<[k := u]> t) mail (k, u).
Proof.
  intros Hnone Hmail. unfold resolves_to.
  apply (rows_where_unique (λ u, email u = mail)).
  - apply lookup_insert_eq.
  - done.
  - intros k' u' Hk' Hmail'.
    destruct (decide (k' = k)) as [|Hne]; [done|].
    rewrite lookup_insert_ne in Hk' by done.
    by destruct (rows_where_nil_inv (λ u, email u = mail) t k' u').
Qed.

Lemma GoogleUserSerializer_validate_fresh (t : Table) (mail : string) (v : Credentials) :
  GoogleUserSerializer_validate t (provisioning_data mail) = inr v →
  rows_where (λ u, email u = mail) t = [].
Proof.
  unfold GoogleUserSerializer_validate.
  destruct (provisioning_data_fields mail) as (-> & -> & ->).
  case_decide as Herrs; [|done]. intros _.
  apply merge_errors_empty in Herrs as [_ Huniq].
  by apply unique_errors_empty in Huniq as [_ Hmail].
Qed.

(** The three ways the lookup-or-provision step can end. *)
Lemma resolve_user_outcome (w : World) (mail : string) :
  (∃ user,
     resolves_to (users w) mail user ∧
     resolve_user mail (local_part mail ++ "_g") "0000" w =
       (Ok (inr user), emit (EvSelect (ByEmail mail)) w)) ∨
  (∃ errs,
     (∀ user, ¬ resolves_to (users w) mail user) ∧
     GoogleUserSerializer_validate (users w) (provisioning_data mail)
       = inl errs ∧
     resolve_user mail (local_part mail ++ "_g") "0000" w =
       (Ok (inl (Response_ (FieldErrors errs) None)), after_rejection mail w)) ∨
  (rows_where (λ u, email u = mail) (users w) = [] ∧
   GoogleUserSerializer_validate (users w) (provisioning_data mail)
     = inr (mkCredentials (local_part mail ++ "_g") mail "0000") ∧
   resolve_user mail (local_part mail ++ "_g") "0000" w =
     (Ok (inr (next_id (users w), provisioned_row mail)),
      after_provisioning mail w)).
Proof.
  destruct (rows_where (λ u, email u = mail) (users w))
    as [|user [|user' rows]] eqn:Hrows.
  2:{ left. exists user. split; [done|]. by apply resolve_user_found. }
  all: right.
  all: assert (∀ user, ¬ resolves_to (users w) mail user) as Hnone
         by (intros user0; unfold resolves_to; by rewrite Hrows).
  all: destruct (objects_get_email_raises _ _ Hnone) as [e Hraise].
  all: destruct (GoogleUserSerializer_validate (users w) (provisioning_data mail))
         as [errs|v] eqn:Hvalid.
  - left. exists errs. split_and!; [done..|].
    unfold resolve_user, bind at 1, try_except. rewrite Hraise.
    unfold GoogleUserSerializer_is_valid. fold (provisioning_data mail).
    monad_simpl. by rewrite Hvalid.
  - right. pose proof (GoogleUserSerializer_validate_inr _ _ _ Hvalid) as ->.
    split_and!; [done..|].
    unfold resolve_user, bind at 1, try_except. rewrite Hraise.
    unfold GoogleUserSerializer_is_valid, GoogleUserSerializer_save,
      objects_create, objects_get_email.
    fold (provisioning_data mail).
    monad_simpl. rewrite Hvalid. monad_simpl.
    fold (provisioned_row mail).
    by rewrite (resolves_to_insert_fresh (users w) mail (next_id (users w))
                  (provisioned_row mail) Hrows eq_refl).
  - left. exists errs. split_and!; [done..|].
    unfold resolve_user, bind at 1, try_except. rewrite Hraise.
    unfold GoogleUserSerializer_is_valid. fold (provisioning_data mail).
    monad_simpl. by rewrite Hvalid.
  - apply GoogleUserSerializer_validate_fresh in Hvalid.
    by rewrite Hrows in Hvalid.
Qed.

(** Every run of the exchange ends in one of the outcomes. *)
Lemma GoogleTokenView_post_outcome (request : Request) (w : World) :
  ∃ (response : Response) (w' : World),
    run_view (GoogleTokenView_post request) w = (response, w') ∧
    GoogleOutcome request w response w'.
Proof.
  destruct (dict_get (body request) "access_token") as [token|] eqn:Htoken.
  2:{ unfold run_view, GoogleTokenView_post. rewrite Htoken.
      eexists _, _. split; [reflexivity|]. by apply GoogleNoToken. }
  destruct (userinfo (bearer token)) as [user_data|] eqn:Hprofile.
  2:{ unfold run_view, GoogleTokenView_post, requests_get_json.
      rewrite Htoken. monad_simpl. pose proof Hprofile as Hprofile'.
      unfold bearer in Hprofile'. rewrite Hprofile'.
      eexists _, _. split; [reflexivity|]. by apply GoogleUnreachable. }
  destruct (dict_get user_data "email") as [value|] eqn:Hmail.
  2:{ unfold run_view, GoogleTokenView_post, requests_get_json.
      rewrite Htoken. monad_simpl. pose proof Hprofile as Hprofile'.
      unfold bearer in Hprofile'. rewrite Hprofile'. rewrite Hmail.
      eexists _, _. split; [reflexivity|]. by eapply GoogleNoEmail. }
  assert ((∃ mail, value = JStr mail) ∨ (∀ mail, value ≠ JStr mail))
    as [[mail ->]|Hodd] by (destruct value; eauto).
  2:{ unfold run_view, GoogleTokenView_post, requests_get_json.
      rewrite Htoken. monad_simpl. pose proof Hprofile as Hprofile'.
      unfold bearer in Hprofile'. rewrite Hprofile'. rewrite Hmail.
      destruct value as [| | |mail]; [..|by destruct (Hodd mail)];
        (eexists _, _; split; [reflexivity|]; by eapply GoogleOddEmail). }
  unfold run_view.
  rewrite (GoogleTokenView_post_profile _ _ _ _ _ Htoken Hprofile Hmail).
  fold (bearer token). fold (after_userinfo token w).
  fold (after_print token user_data w).
  unfold bind at 1.
  destruct (resolve_user_outcome (after_print token user_data w) mail)
    as [(user & Hfound & ->)|[(errs & Hnone & Hinvalid & ->)|(Hrows & Hvalid & ->)]];
    change (users (after_print token user_data w)) with (users w) in *.
  - cbv beta iota.
    destruct (decide (logintype user.2 = "GOOGLE")) as [Hgoogle|Hlocal].
    + rewrite issue_tokens_google by done.
      eexists _, _. split; [reflexivity|]. by eapply GoogleLogin.
    + rewrite issue_tokens_not_google by done.
      eexists _, _. split; [reflexivity|]. by eapply GoogleNotSocial.
  - eexists _, _. split; [reflexivity|]. by eapply GoogleInvalid.
  - cbv beta iota. rewrite issue_tokens_google by done.
    eexists _, _. split; [reflexivity|]. by eapply GoogleProvisioned.
Qed.

Lemma resolves_to_functional (t : Table) (mail : string) (user user' : Instance) :
  resolves_to t mail user → resolves_to t mail user' → user = user'.
Proof. unfold resolves_to. intros -> [= ->]. done. Qed.

Lemma http_calls_emit (ev : Event) (w : World) :
  http_calls (log (emit ev w)) =
    (http_calls (log w) ++
       match ev with
       | EvHttpGet url authorization => [(url, authorization)]
       | _ => []
       end)%list.
Proof.
  unfold http_calls, emit. simpl. rewrite omap_app. by destruct ev.
Qed.

(** Closes the outcomes that the facts at hand exclude. *)
Local Ltac exclude_outcome :=
  simplify_eq;
  try done;
  try congruence;
  try match goal with
      | Hodd : ∀ m : string, JStr ?x ≠ JStr m |- _ => by destruct (Hodd x)
      end;
  try match goal with
      | Hnone : ∀ user, ¬ resolves_to _ _ user, Hf : resolves_to _ _ ?u |- _ =>
          by destruct (Hnone u)
      end;
  try match goal with
      | Hrows : rows_where _ _ = [], Hf : resolves_to _ _ _ |- _ =>
          unfold resolves_to in Hf; by rewrite Hrows in Hf
      end;
  try match goal with
      | H1 : resolves_to ?t ?m ?u, H2 : resolves_to ?t ?m ?u' |- _ =>
          pose proof (resolves_to_functional _ _ _ _ H1 H2); subst; try done
      end.

(** ** GoogleTokenView.post *)

(** X1. A Google exchange whose body carries access_token as a JSON null is
    answered like one without the field: status 401, and the world is left
    as it was, so the identity provider is not called. *)
Theorem GoogleTokenView_post_null_token (request : Request) (w : World) :
  body request !! "access_token" = Some JNull →
  run_view (GoogleTokenView_post request) w =
    (Response_ (Message "토큰이 없습니다.") (Some HTTP_401_UNAUTHORIZED), w).
Proof.
  intros Hnull. unfold GoogleTokenView_post, dict_get. by rewrite Hnull.
Qed.

(** X2. A Google exchange whose profile carries no email (absent or null)
    is answered with status 401 after the one call to the identity
    provider; the user table is neither queried nor written. *)
Theorem GoogleTokenView_post_profile_without_email
    (request : Request) (w : World) (token : json) (user_data : Dict) :
  dict_get (body request) "access_token" = Some token →
  userinfo (bearer token) = Some user_data →
  dict_get user_data "email" = None →
  run_view (GoogleTokenView_post request) w =
    (Response_ (Message "유저정보에 접근할 수 없습니다.")
       (Some HTTP_401_UNAUTHORIZED),
     after_userinfo token w) ∧
  users (after_userinfo token w) = users w ∧
  log (after_userinfo token w) =
    (log w ++ [EvHttpGet userinfo_url (bearer token)])%list.
Proof.
  intros Htoken Hprofile Hmail.
  destruct (GoogleTokenView_post_outcome request w)
    as (response & w' & -> & Hout).
  by destruct Hout; exclude_outcome.
Qed.

(** X3. A Google exchange whose call to the identity provider fails is not
    handled by the view: the exception leaves it, the answer is the
    framework's status 500, and the user table is neither queried nor
    written. *)
Theorem GoogleTokenView_post_provider_failure
    (request : Request) (w : World) (token : json) :
  dict_get (body request) "access_token" = Some token →
  userinfo (bearer token) = None →
  GoogleTokenView_post request w =
    (Raise RequestException, after_userinfo token w) ∧
  status (run_view (GoogleTokenView_post request) w).1 = 500 ∧
  (run_view (GoogleTokenView_post request) w).2 = after_userinfo token w.
Proof.
  intros Htoken Hprofile.
  assert (GoogleTokenView_post request w =
            (Raise RequestException, after_userinfo token w)) as Hraise.
  { unfold GoogleTokenView_post, requests_get_json. rewrite Htoken.
    monad_simpl. unfold bearer in Hprofile. by rewrite Hprofile. }
  unfold run_view. by rewrite Hraise.
Qed.

(** X4. A Google exchange whose email resolves to a row of logintype GOOGLE
    is answered with status 200 and a token pair made from the stored row:
    both tokens embed the row's email, username and logintype; the table is
    as it was, nothing is provisioned. *)
Theorem GoogleTokenView_post_returning_user
    (request : Request) (w : World) (token : json) (user_data : Dict)
    (mail : string) (user : Instance) :
  dict_get (body request) "access_token" = Some token →
  userinfo (bearer token) = Some user_data →
  dict_get user_data "email" = Some (JStr mail) →
  resolves_to (users w) mail user →
  logintype user.2 = "GOOGLE" →
  ∃ w' : World,
    run_view (GoogleTokenView_post request) w =
      (Response_ (TokenPair (token_str (session_refresh user))
                    (token_str (access_token (session_refresh user))))
         (Some HTTP_200_OK), w') ∧
    embeds (session_refresh user) user.2 ∧
    embeds (access_token (session_refresh user)) user.2 ∧
    users w' = users w.
Proof.
  intros Htoken Hprofile Hmail Hfound Hgoogle.
  destruct (GoogleTokenView_post_outcome request w)
    as (response & w' & -> & Hout).
  exists w'. destruct Hout; exclude_outcome.
  split; [done|]. split; [apply session_refresh_embeds|].
  split; [apply access_token_embeds, session_refresh_embeds|done].
Qed.

(** X5. Whatever the request, a Google exchange leaves every existing row
    as it is, and the table at its end is either the table it started with
    or that table with one row more: a provisioned row, under a key that
    was free. *)
Theorem GoogleTokenView_post_table (request : Request) (w : World) :
  (users (run_view (GoogleTokenView_post request) w).2 = users w ∨
   ∃ mail : string,
     users w !! next_id (users w) = None ∧
     users (run_view (GoogleTokenView_post request) w).2 =
       <[next_id (users w) := provisioned_row mail]> (users w)) ∧
  (∀ k u, users w !! k = Some u →
          users (run_view (GoogleTokenView_post request) w).2 !! k = Some u).
Proof.
  destruct (GoogleTokenView_post_outcome request w)
    as (response & w' & -> & Hout).
  destruct Hout; simpl; try (by split; [left|]).
  split.
  - right. exists mail. split; [apply next_id_fresh | done].
  - intros k u Hk. rewrite lookup_insert_ne; [done|].
    intros <-. by rewrite next_id_fresh in Hk.
Qed.

(** X6. A Google exchange answers with a token pair only under status 200
    and only for a row that is in the table at the end, has logintype
    GOOGLE and has the email of the identity provider's profile; the pair
    is made from that row. *)
Theorem GoogleTokenView_post_tokens_only_for_google
    (request : Request) (w : World) (refresh access : string) :
  data (run_view (GoogleTokenView_post request) w).1
    = TokenPair refresh access →
  status (run_view (GoogleTokenView_post request) w).1 = 200 ∧
  ∃ (token : json) (user_data : Dict) (k : Z) (u : User),
    dict_get (body request) "access_token" = Some token ∧
    userinfo (bearer token) = Some user_data ∧
    dict_get user_data "email" = Some (JStr (email u)) ∧
    users (run_view (GoogleTokenView_post request) w).2 !! k = Some u ∧
    logintype u = "GOOGLE" ∧
    refresh = token_str (session_refresh (k, u)) ∧
    access = token_str (access_token (session_refresh (k, u))).
Proof.
  destruct (GoogleTokenView_post_outcome request w)
    as (response & w' & -> & Hout).
  destruct Hout; simpl; try done; intros [= <- <-]; (split; [done|]).
  - destruct user as [k u].
    match goal with
    | Hfound : resolves_to _ _ _ |- _ =>
        apply resolves_to_lookup in Hfound as [Hk <-]
    end.
    by exists token, user_data, k, u.
  - exists token, user_data, (next_id (users w)), (provisioned_row mail).
    split_and!; try done. apply lookup_insert_eq.
Qed.


(** X8. Whatever the request, a Google exchange calls the identity
    provider exactly once when the body carries a token, at the userinfo
    endpoint and with the token as bearer, and not at all when it carries
    none. *)
Theorem GoogleTokenView_post_provider_calls (request : Request) (w : World) :
  http_calls (log (run_view (GoogleTokenView_post request) w).2) =
    (http_calls (log w) ++
       match dict_get (body request) "access_token" with
       | Some token => [(userinfo_url, bearer token)]
       | None => []
       end)%list.
Proof.
  destruct (GoogleTokenView_post_outcome request w)
    as (response & w' & -> & Hout).
  destruct Hout;
    match goal with
    | Htoken : dict_get _ "access_token" = _ |- _ => rewrite Htoken
    end;
    unfold after_provisioning, after_rejection, after_print, after_userinfo;
    cbn [snd];
    repeat first [rewrite http_calls_emit | progress cbn [log set_users app]];
    rewrite ?app_nil_r; done.
Qed.

(** X9. Whatever the request, the status of a Google exchange is 200, 400,
    401 or 500; in particular the lookup after provisioning never ends in
    404. *)
Theorem GoogleTokenView_post_statuses (request : Request) (w : World) :
  status (run_view (GoogleTokenView_post request) w).1 ∈ [200; 400; 401; 500].
Proof.
  destruct (GoogleTokenView_post_outcome request w)
    as (response & w' & -> & Hout).
  destruct Hout; simpl; set_solver.
Qed.

(** X10. A local sign-up followed by a Google exchange for the same email:
    the sign-up persists the row and is answered with 201, the exchange
    finds that row, is answered with 400, issues no token pair and leaves
    the table as the sign-up left it. *)
Theorem sign_up_then_google_exchange
    (sign_up request : Request) (w : World) (v : Credentials)
    (token : json) (user_data : Dict) :
  UserSerializer_validate (users w) (body sign_up) = inr v →
  dict_get (body request) "access_token" = Some token →
  userinfo (bearer token) = Some user_data →
  dict_get user_data "email" = Some (JStr (v_email v)) →
  ∃ w1 w2 : World,
    run_view (UserSignView_post sign_up) w =
      (Response_ (Message "회원가입성공") (Some HTTP_201_CREATED), w1) ∧
    run_view (GoogleTokenView_post request) w1 =
      (Response_ (Message "소셜 로그인 이메일이 아닙니다.")
         (Some HTTP_400_BAD_REQUEST), w2) ∧
    users w2 = users w1.
Proof.
  intros Hvalid Htoken Hprofile Hmail.
  destruct (UserSerializer_validate_inr _ _ _ Hvalid)
    as (_ & _ & _ & _ & _ & _ & Hfresh).
  set (row := {| username := v_username v; email := v_email v;
                 password := make_password (v_password v);
                 is_active := true; logintype := "LOCAL" |}).
  set (w1 := emit (EvInsert (next_id (users w)) row)
               (set_users (<[next_id (users w) := row]> (users w))
                  (emit (EvSelect (ByEmail (default "" (str_field (body sign_up) "email"))))
                     (emit (EvSelect (ByUsername (default "" (str_field (body sign_up) "username")))) w)))).
  exists w1.
  assert (run_view (UserSignView_post sign_up) w =
            (Response_ (Message "회원가입성공") (Some HTTP_201_CREATED), w1))
    as ->.
  { unfold UserSignView_post, UserSerializer_is_valid, UserSerializer_save,
      objects_create.
    monad_simpl. rewrite Hvalid. by monad_simpl. }
  assert (resolves_to (users w1) (v_email v) (next_id (users w), row))
    as Hfound.
  { apply (resolves_to_insert_fresh (users w)); [|done].
    apply (rows_where_nil (λ u, email u = v_email v)). exact Hfresh. }
  destruct (GoogleTokenView_post_outcome request w1)
    as (response & w2 & -> & Hout).
  exists w2. destruct Hout; exclude_outcome.
Qed.

End Outcomes.

Section AccountViews.
Context `{Platform}.

(** ** UserSignView.get *)

(** X11. Retrieval by a non-zero identifier that has a row is answered with
    status 200 and the record of that row, whoever the caller is, anonymous
    included: the view makes no ownership check. *)
Theorem UserSignView_get_any_caller
    (request : Request) (w : World) (k : Z) (u : User) :
  k ≠ 0 →
  users w !! k = Some u →
  run_view (UserSignView_get request (Some k)) w =
    (Response_ (UserRecord (UserSerializer_data (k, u))) (Some HTTP_200_OK),
     emit (EvSelect (ById (Some k))) w).
Proof.
  intros Hk Hrow. apply UserSignView_get_found; [|done].
  simpl. by rewrite bool_decide_eq_true_2.
Qed.


(** X13. Retrieval without an identifier by a caller who has a row is
    answered with status 200 and the caller's own record. *)
Theorem UserSignView_get_own_record
    (request : Request) (w : World) (caller : Z) (u : User) :
  user_id_of request = Some caller →
  users w !! caller = Some u →
  run_view (UserSignView_get request None) w =
    (Response_ (UserRecord (UserSerializer_data (caller, u)))
       (Some HTTP_200_OK),
     emit (EvSelect (ById (Some caller))) w).
Proof. intros Hcaller Hrow. by apply UserSignView_get_found. Qed.


(** ** UserSignView.put *)


(** X16. Whatever the request, deactivation adds no row and removes none,
    and every row is afterwards either as it was or, if it is the caller's,
    as it was with is_active false. *)
Theorem UserSignView_put_frame (request : Request) (w : World) :
  dom (users (run_view (UserSignView_put request) w).2) = dom (users w) ∧
  ∀ k u, users w !! k = Some u →
    users (run_view (UserSignView_put request) w).2 !! k = Some u ∨
    (user_id_of request = Some k ∧
     users (run_view (UserSignView_put request) w).2 !! k
       = Some (set_is_active false u)).
Proof.
  unfold UserSignView_put, objects_get_id.
  destruct (user_id_of request) as [caller|]; monad_simpl; [|by auto].
  destruct (users w !! caller) as [row|] eqn:Hrow; monad_simpl; [|by auto].
  destruct (UserSignOutSerializer_validate (caller, row) (body request))
    as [errs|[]]; monad_simpl; [by auto|].
  split.
  - apply dom_insert_lookup_L. by exists row.
  - intros k u Hk. destruct (decide (k = caller)) as [->|Hne].
    + right. rewrite lookup_insert_eq. by simplify_eq.
    + left. by rewrite lookup_insert_ne.
Qed.

(** X17. A successful deactivation can be repeated: the same request on
    the world it left is again answered with status 200 and leaves the
    table as the first run left it. *)
Theorem UserSignView_put_twice
    (request : Request) (w : World) (caller : Z) (u : User) (pw : string) :
  user_id_of request = Some caller →
  users w !! caller = Some u →
  body request !! "password" = Some (JStr pw) →
  check_password pw (password u) = true →
  ∃ w1 w2 : World,
    run_view (UserSignView_put request) w =
      (Response_ (Message "회원탈퇴성공") (Some HTTP_200_OK), w1) ∧
    run_view (UserSignView_put request) w1 =
      (Response_ (Message "회원탈퇴성공") (Some HTTP_200_OK), w2) ∧
    users w1 !! caller = Some (set_is_active false u) ∧
    users w2 = users w1.
Proof.
  intros Hcaller Hrow Hpw%str_field_Some Hmatch.
  assert (∀ (w0 : World) (row : User),
            users w0 !! caller = Some row →
            password row = password u →
            run_view (UserSignView_put request) w0 =
              (Response_ (Message "회원탈퇴성공") (Some HTTP_200_OK),
               emit (EvUpdate caller (set_is_active false row))
                 (set_users (<[caller := set_is_active false row]> (users w0))
                    (emit (EvSelect (ById (Some caller))) w0)))) as Hrun.
  { intros w0 row Hrow0 Hsame.
    unfold UserSignView_put, objects_get_id, instance_save,
      UserSignOutSerializer_validate.
    rewrite Hcaller. monad_simpl. rewrite Hrow0. monad_simpl.
    rewrite Hpw. simpl. rewrite Hsame, Hmatch. by monad_simpl. }
  eexists _, _. split; [by apply Hrun|].
  split; [apply Hrun; [apply lookup_insert_eq | done]|].
  simpl. split; [apply lookup_insert_eq|].
  by rewrite insert_insert_eq.
Qed.

(** X21. A successful deactivation is a soft delete: the caller's record
    can still be retrieved afterwards, with status 200, and it is the
    record of the row with is_active false. *)
Theorem UserSignView_put_then_get
    (request : Request) (w : World) (caller : Z) (u : User) (pw : string) :
  user_id_of request = Some caller →
  users w !! caller = Some u →
  body request !! "password" = Some (JStr pw) →
  check_password pw (password u) = true →
  ∃ w1 w2 : World,
    run_view (UserSignView_put request) w =
      (Response_ (Message "회원탈퇴성공") (Some HTTP_200_OK), w1) ∧
    run_view (UserSignView_get request None) w1 =
      (Response_
         (UserRecord (UserSerializer_data (caller, set_is_active false u)))
         (Some HTTP_200_OK), w2) ∧
    users w2 = users w1.
Proof.
  intros Hcaller Hrow Hpw%str_field_Some Hmatch.
  eexists _, (emit (EvSelect (ById (Some caller))) _). split.
  { unfold UserSignView_put, objects_get_id, instance_save,
      UserSignOutSerializer_validate.
    rewrite Hcaller. monad_simpl. rewrite Hrow. monad_simpl.
    rewrite Hpw. simpl. rewrite Hmatch. by monad_simpl. }
  split; [|reflexivity].
  apply UserSignView_get_found; [done|]. apply lookup_insert_eq.
Qed.

(** ** UserSignView.post *)

(** X22. Whatever the request, sign-up either is answered with status 400
    and leaves the table as it was, or is answered with status 201 and adds
    exactly one row, active and of logintype LOCAL, under a key that was
    free; existing rows are never changed. *)
Theorem UserSignView_post_table (request : Request) (w : World) :
  (status (run_view (UserSignView_post request) w).1 = 400 ∧
   users (run_view (UserSignView_post request) w).2 = users w) ∨
  (status (run_view (UserSignView_post request) w).1 = 201 ∧
   ∃ row : User,
     is_active row = true ∧ logintype row = "LOCAL" ∧
     users w !! next_id (users w) = None ∧
     users (run_view (UserSignView_post request) w).2 =
       <[next_id (users w) := row]> (users w)).
Proof.
  unfold UserSignView_post, UserSerializer_is_valid, UserSerializer_save,
    objects_create.
  monad_simpl.
  destruct (UserSerializer_validate (users w) (body request)) as [errs|v];
    monad_simpl; [by left|].
  right. split; [done|]. eexists. split_and!; [..|reflexivity]; try done.
  apply next_id_fresh.
Qed.

(** ** UserSignView.patch *)


(** X19. An edit whose validation fails is answered with status 400 and the
    errors of the schema, and save is not run: the final world is the one
    validation left. *)
Theorem UserSignView_patch_invalid
    {Validated : Type}
    (is_valid : Instance → Dict → M (Errors + Validated))
    (save : Instance → Validated → M Instance)
    (request : Request) (w w1 : World) (caller : Z) (u : User)
    (errs : Errors) :
  user_id_of request = Some caller →
  users w !! caller = Some u →
  is_valid (caller, u) (body request) (emit (EvSelect (ById (Some caller))) w)
    = (Ok (inl errs), w1) →
  run_view (UserSignView_patch is_valid save request) w =
    (Response_ (FieldErrors errs) (Some HTTP_400_BAD_REQUEST), w1).
Proof.
  intros Hcaller Hrow Hinvalid.
  unfold UserSignView_patch, objects_get_id.
  rewrite Hcaller. monad_simpl. rewrite Hrow. monad_simpl.
  by rewrite Hinvalid.
Qed.

(** ** The synthesized username *)

Lemma has_char_local_part (s : string) : has_char "@" (local_part s) = false.
Proof.
  induction s as [|c s IH]; simpl; [done|].
  destruct (decide (c = "@"%char)); simpl; [done|].
  by destruct (decide (c = "@"%char)).
Qed.

Lemma has_char_app (c : ascii) (s1 s2 : string) :
  has_char c (s1 ++ s2) = has_char c s1 || has_char c s2.
Proof.
  induction s1 as [|a s1 IH]; simpl; [done|].
  by destruct (decide (a = c)).
Qed.

Lemma local_part_is_prefix (s : string) :
  ∃ rest, s = local_part s ++ rest ∧
          (rest = "" ∨ ∃ domain, rest = String "@" domain).
Proof.
  induction s as [|c s (rest & IH & Hrest)]; simpl.
  - exists "". by split; [|left].
  - destruct (decide (c = "@"%char)) as [->|].
    + exists (String "@" s). split; [done|]. right. by exists s.
    + exists rest. split; [|done].
      change (String c s = String c (local_part s ++ rest)). congruence.
Qed.

(** X20. For every email, the synthesis of the username succeeds without an
    effect; the username is a prefix of the email that stops at the end or
    before an at sign, followed by "_g", and never contains an at sign. *)
Theorem synthesized_username_total (mail : string) (w : World) :
  ∃ local rest : string,
    synthesized_username mail w = (Ok (local ++ "_g"), w) ∧
    mail = local ++ rest ∧
    (rest = "" ∨ ∃ domain, rest = String "@" domain) ∧
    has_char "@" (local ++ "_g") = false.
Proof.
  destruct (local_part_is_prefix mail) as (rest & Hmail & Hrest).
  exists (local_part mail), rest. split_and!; try done.
  - apply synthesized_username_local_part.
  - by rewrite has_char_app, has_char_local_part.
Qed.

End AccountViews.

(** * Closed instances *)

Section Instances.
#[local] Existing Instance Sample.platform.
Import Sample.

Lemma GoogleTokenView_post_provisions_bob :
  dict_get (body google_request) "access_token" = Some (JStr "ya29.bob") ∧
  userinfo "Bearer ya29.bob" = Some bob_profile ∧
  rows_where (λ u, email u = "bob@x.com") (users empty_world) = [] ∧
  GoogleUserSerializer_validate (users empty_world)
    (provisioning_data "bob@x.com")
    = inr (mkCredentials "bob_g" "bob@x.com" "0000") ∧
  ∃ (w' : World) (refresh access : Token),
    run_view (GoogleTokenView_post google_request) empty_world =
      (Response_ (TokenPair (token_str refresh) (token_str access))
         (Some HTTP_200_OK), w') ∧
    users w' = {[ 1 := provisioned_row "bob@x.com" ]} ∧
    username (provisioned_row "bob@x.com") = "bob_g".
Proof.
  split; [reflexivity|]. split; [reflexivity|].
  split; [vm_compute; reflexivity|]. split; [vm_compute; reflexivity|].
  destruct (GoogleTokenView_post_provisions google_request empty_world
              (JStr "ya29.bob") bob_profile "bob@x.com"
              (mkCredentials "bob_g" "bob@x.com" "0000"))
    as (w' & refresh & access & Hrun & _ & _ & Hw' & Hname & _);
    [reflexivity | reflexivity | reflexivity
    | vm_compute; reflexivity | vm_compute; reflexivity |].
  exists w', refresh, access. split; [exact Hrun|].
  split; [exact Hw' | exact Hname].
Defined.

(** C1, as stated, fails: bob@x.com has no row, yet the username "bob_g" is
    held by the account of bob@y.com, so the provisioning validation fails;
    the answer carries the errors under status 200, no token pair is issued
    and no row is added. *)
Lemma GoogleTokenView_post_username_taken :
  dict_get (body google_request) "access_token" = Some (JStr "ya29.bob") ∧
  userinfo "Bearer ya29.bob" = Some bob_profile ∧
  rows_where (λ u, email u = "bob@x.com") (users taken_world) = [] ∧
  (run_view (GoogleTokenView_post google_request) taken_world).1 =
    Response_ (FieldErrors username_taken) None ∧
  users (run_view (GoogleTokenView_post google_request) taken_world).2 =
    users taken_world ∧
  ¬ ∃ (w' : World) (refresh access : Token),
      run_view (GoogleTokenView_post google_request) taken_world =
        (Response_ (TokenPair (token_str refresh) (token_str access))
           (Some HTTP_200_OK), w').
Proof.
  assert ((run_view (GoogleTokenView_post google_request) taken_world).1 =
            Response_ (FieldErrors username_taken) None) as Hrun
    by (vm_compute; reflexivity).
  do 3 (split; [vm_compute; reflexivity|]).
  split; [exact Hrun|]. split; [vm_compute; reflexivity|].
  intros (w' & refresh & access & Htokens).
  rewrite Htokens in Hrun. discriminate Hrun.
Qed.

Lemma GoogleTokenView_post_local_account_bob :
  dict_get (body google_request) "access_token" = Some (JStr "ya29.bob") ∧
  userinfo "Bearer ya29.bob" = Some bob_profile ∧
  resolves_to (users local_world) "bob@x.com" (1, bob_local) ∧
  logintype bob_local ≠ "GOOGLE" ∧
  ∃ w' : World,
    (run_view (GoogleTokenView_post google_request) local_world).1 =
      Response_ (Message "소셜 로그인 이메일이 아닙니다.")
        (Some HTTP_400_BAD_REQUEST) ∧
    users w' = users local_world.
Proof.
  split; [reflexivity|]. split; [reflexivity|].
  split; [vm_compute; reflexivity|]. split; [discriminate|].
  destruct (GoogleTokenView_post_local_account google_request local_world
              (JStr "ya29.bob") bob_profile "bob@x.com" (1, bob_local))
    as (w' & Hrun & _ & _ & Hw');
    [reflexivity | reflexivity | reflexivity
    | vm_compute; reflexivity | discriminate |].
  exists w'. split; [by rewrite Hrun | exact Hw'].
Defined.

Lemma GoogleTokenView_post_provisioning_invalid_bob :
  dict_get (body google_request) "access_token" = Some (JStr "ya29.bob") ∧
  userinfo "Bearer ya29.bob" = Some bob_profile ∧
  List.length (rows_where (λ u, email u = "bob@x.com") (users taken_world))
    ≠ 1%nat ∧
  GoogleUserSerializer_validate (users taken_world)
    (provisioning_data "bob@x.com") = inl username_taken ∧
  ∃ w' : World,
    run_view (GoogleTokenView_post google_request) taken_world =
      (Response_ (FieldErrors username_taken) None, w') ∧
    status (run_view (GoogleTokenView_post google_request) taken_world).1
      = 200.
Proof.
  split; [reflexivity|]. split; [reflexivity|].
  split; [vm_compute; lia|]. split; [vm_compute; reflexivity|].
  destruct (GoogleTokenView_post_provisioning_invalid google_request
              taken_world (JStr "ya29.bob") bob_profile "bob@x.com"
              username_taken)
    as (w' & Hrun & Hstatus & _);
    [reflexivity | reflexivity | reflexivity
    | vm_compute; lia | vm_compute; reflexivity |].
  exists w'. split; [exact Hrun | exact Hstatus].
Defined.

Lemma UserSignView_put_deactivates_ann :
  user_id_of (ann_request {[ "password" := JStr "Pw123!" ]}) = Some 5 ∧
  users ann_world !! 5 = Some ann ∧
  check_password "Pw123!" (password ann) = true ∧
  ∃ w' : World,
    run_view (UserSignView_put (ann_request {[ "password" := JStr "Pw123!" ]}))
      ann_world =
      (Response_ (Message "회원탈퇴성공") (Some HTTP_200_OK), w') ∧
    users w' = {[ 5 := set_is_active false ann ]}.
Proof.
  split; [reflexivity|]. split; [reflexivity|]. split; [reflexivity|].
  destruct (UserSignView_put_deactivates
              (ann_request {[ "password" := JStr "Pw123!" ]}) ann_world 5 ann
              "Pw123!")
    as (w' & Hrun & _ & Hw' & _);
    [reflexivity | reflexivity | reflexivity | reflexivity |].
  exists w'. split; [exact Hrun|]. rewrite Hw'. vm_compute. reflexivity.
Defined.

Lemma UserSignView_put_wrong_password_ann :
  user_id_of (ann_request {[ "password" := JStr "guess" ]}) = Some 5 ∧
  users ann_world !! 5 = Some ann ∧
  check_password "guess" (password ann) = false ∧
  ∃ (errs : Errors) (w' : World),
    run_view (UserSignView_put (ann_request {[ "password" := JStr "guess" ]}))
      ann_world =
      (Response_ (FieldErrors errs) (Some HTTP_400_BAD_REQUEST), w') ∧
    users w' !! 5 = Some ann.
Proof.
  split; [reflexivity|]. split; [reflexivity|]. split; [reflexivity|].
  destruct (UserSignView_put_wrong_password
              (ann_request {[ "password" := JStr "guess" ]}) ann_world 5 ann
              "guess")
    as (errs & w' & Hrun & _ & _ & _ & Hrow);
    [reflexivity | reflexivity | reflexivity | reflexivity |].
  exists errs, w'. split; [exact Hrun | exact Hrow].
Defined.

Lemma UserSignView_post_sign_up_ann :
  (UserSerializer_validate (users empty_world) (body ann_sign_up)
     = inr (mkCredentials "ann" "ann@x.com" "Pw123!") ∧
   ∃ w' : World,
     run_view (UserSignView_post ann_sign_up) empty_world =
       (Response_ (Message "회원가입성공") (Some HTTP_201_CREATED), w') ∧
     users w' = {[ 1 := ann ]}) ∧
  (UserSerializer_validate (users empty_world) (body ann_mistyped)
     = inl passwords_differ ∧
   ∃ w' : World,
     run_view (UserSignView_post ann_mistyped) empty_world =
       (Response_ (FieldErrors passwords_differ) (Some HTTP_400_BAD_REQUEST), w') ∧
     users w' = users empty_world).
Proof.
  split.
  - split; [vm_compute; reflexivity|].
    destruct (proj1 (UserSignView_post_sign_up ann_sign_up empty_world)
                (mkCredentials "ann" "ann@x.com" "Pw123!"))
      as (_ & _ & _ & _ & _ & w' & Hrun & _ & _ & Hw');
      [vm_compute; reflexivity|].
    exists w'. split; [exact Hrun|]. rewrite Hw'. vm_compute. reflexivity.
  - split; [vm_compute; reflexivity|].
    destruct (proj2 (UserSignView_post_sign_up ann_mistyped empty_world)
                passwords_differ)
      as (w' & Hrun & _ & Hw');
      [vm_compute; reflexivity|].
    exists w'. split; [exact Hrun | exact Hw'].
Defined.

Lemma UserSignView_get_zero_returns_ann :
  users ann_world !! 0 = None ∧
  user_id_of (ann_request ∅) = Some 5 ∧
  users ann_world !! 5 = Some ann ∧
  (run_view (UserSignView_get (ann_request ∅) (Some 0)) ann_world).1 =
    Response_ (UserRecord (mkUserData 5 "ann" "ann@x.com" true "LOCAL"))
      (Some HTTP_200_OK).
Proof.
  split; [reflexivity|]. split; [reflexivity|]. split; [reflexivity|].
  rewrite (UserSignView_get_zero_returns_caller (ann_request ∅) ann_world 5 ann);
    reflexivity.
Defined.

Lemma UserSignView_get_anonymous_not_found_ann :
  user_id_of (mkRequest None ∅) = None ∧
  (run_view (UserSignView_get (mkRequest None ∅) None) ann_world).1 =
    Response_ (Detail "Not found.") (Some HTTP_404_NOT_FOUND).
Proof.
  split; [reflexivity|].
  destruct (UserSignView_get_anonymous_not_found (mkRequest None ∅) ann_world)
    as (Hrun & _); [reflexivity|].
  by rewrite Hrun.
Defined.

Lemma GoogleTokenView_post_no_token_empty_body :
  body (mkRequest None ∅) !! "access_token" = None ∧
  run_view (GoogleTokenView_post (mkRequest None ∅)) ann_world =
    (Response_ (Message "토큰이 없습니다.") (Some HTTP_401_UNAUTHORIZED),
     ann_world).
Proof.
  split; [reflexivity|].
  apply (GoogleTokenView_post_no_token (mkRequest None ∅) ann_world).
  reflexivity.
Defined.

Lemma synthesized_username_bob :
  (has_char "@" "bob" = false ∧
   synthesized_username ("bob" ++ "@" ++ "x.com") empty_world
     = (Ok "bob_g", empty_world)) ∧
  (has_char "@" "bob" = false ∧
   synthesized_username "bob" empty_world = (Ok "bob_g", empty_world)).
Proof.
  split; (split; [reflexivity|]).
  - apply (proj1 synthesized_username_before_first_at "bob" "x.com").
    reflexivity.
  - apply (proj2 synthesized_username_before_first_at "bob").
    reflexivity.
Defined.

Lemma GoogleTokenView_post_null_token_ann :
  body null_token_request !! "access_token" = Some JNull ∧
  run_view (GoogleTokenView_post null_token_request) ann_world =
    (Response_ (Message "토큰이 없습니다.") (Some HTTP_401_UNAUTHORIZED),
     ann_world).
Proof.
  split; [reflexivity|].
  apply (GoogleTokenView_post_null_token null_token_request ann_world).
  reflexivity.
Defined.

Lemma GoogleTokenView_post_profile_without_email_ann :
  dict_get (body google_request) "access_token" = Some (JStr "ya29.bob") ∧
  userinfo (Platform := with_userinfo (Some ∅)) (bearer (JStr "ya29.bob"))
    = Some ∅ ∧
  dict_get (∅ : Dict) "email" = None ∧
  status
    (run_view (GoogleTokenView_post (H := with_userinfo (Some ∅)) google_request)
       ann_world).1 = 401.
Proof.
  split; [reflexivity|]. split; [reflexivity|]. split; [reflexivity|].
  destruct (GoogleTokenView_post_profile_without_email
              (H := with_userinfo (Some ∅)) google_request ann_world
              (JStr "ya29.bob") ∅) as (Hrun & _);
    [reflexivity | reflexivity | reflexivity |].
  by rewrite Hrun.
Defined.

Lemma GoogleTokenView_post_provider_failure_ann :
  dict_get (body stale_request) "access_token" = Some (JStr "ya29.stale") ∧
  userinfo (bearer (JStr "ya29.stale")) = None ∧
  status (run_view (GoogleTokenView_post stale_request) ann_world).1 = 500 ∧
  users (run_view (GoogleTokenView_post stale_request) ann_world).2
    = users ann_world.
Proof.
  split; [reflexivity|]. split; [reflexivity|].
  destruct (GoogleTokenView_post_provider_failure stale_request ann_world
              (JStr "ya29.stale")) as (_ & Hstatus & Hworld);
    [reflexivity | reflexivity |].
  split; [exact Hstatus|]. by rewrite Hworld.
Defined.

Lemma GoogleTokenView_post_returning_user_bob :
  dict_get (body google_request) "access_token" = Some (JStr "ya29.bob") ∧
  userinfo (bearer (JStr "ya29.bob")) = Some bob_profile ∧
  resolves_to (users google_world) "bob@x.com" (3, bob_google) ∧
  logintype bob_google = "GOOGLE" ∧
  ∃ w' : World,
    run_view (GoogleTokenView_post google_request) google_world =
      (Response_ (TokenPair (token_str (session_refresh (3, bob_google)))
                    (token_str (access_token (session_refresh (3, bob_google)))))
         (Some HTTP_200_OK), w') ∧
    payload (session_refresh (3, bob_google)) !! "username"
      = Some (JStr "robert") ∧
    users w' = users google_world.
Proof.
  split; [reflexivity|]. split; [reflexivity|].
  split; [vm_compute; reflexivity|]. split; [reflexivity|].
  destruct (GoogleTokenView_post_returning_user google_request google_world
              (JStr "ya29.bob") bob_profile "bob@x.com" (3, bob_google))
    as (w' & Hrun & (_ & Hname & _) & _ & Hw');
    [reflexivity | reflexivity | reflexivity
    | vm_compute; reflexivity | reflexivity |].
  exists w'. split; [exact Hrun|]. split; [exact Hname | exact Hw'].
Defined.

Lemma GoogleTokenView_post_tokens_only_for_google_bob :
  data (run_view (GoogleTokenView_post google_request) google_world).1
    = TokenPair "e30.e30.c2ln" "e30.e30.c2ln" ∧
  status (run_view (GoogleTokenView_post google_request) google_world).1
    = 200.
Proof.
  split; [vm_compute; reflexivity|].
  destruct (GoogleTokenView_post_tokens_only_for_google google_request
              google_world "e30.e30.c2ln" "e30.e30.c2ln") as (Hstatus & _);
    [vm_compute; reflexivity|].
  exact Hstatus.
Defined.


Lemma sign_up_then_google_exchange_bob :
  UserSerializer_validate (users empty_world) (body bob_sign_up)
    = inr (mkCredentials "bob" "bob@x.com" "Pw123!") ∧
  dict_get (body google_request) "access_token" = Some (JStr "ya29.bob") ∧
  userinfo (bearer (JStr "ya29.bob")) = Some bob_profile ∧
  dict_get bob_profile "email" = Some (JStr "bob@x.com") ∧
  ∃ w1 w2 : World,
    run_view (UserSignView_post bob_sign_up) empty_world =
      (Response_ (Message "회원가입성공") (Some HTTP_201_CREATED), w1) ∧
    run_view (GoogleTokenView_post google_request) w1 =
      (Response_ (Message "소셜 로그인 이메일이 아닙니다.")
         (Some HTTP_400_BAD_REQUEST), w2) ∧
    users w2 = users w1.
Proof.
  split; [vm_compute; reflexivity|]. split; [reflexivity|].
  split; [reflexivity|]. split; [reflexivity|].
  apply (sign_up_then_google_exchange bob_sign_up google_request empty_world
           (mkCredentials "bob" "bob@x.com" "Pw123!") (JStr "ya29.bob")
           bob_profile);
    [vm_compute; reflexivity | reflexivity | reflexivity | reflexivity].
Defined.

Lemma UserSignView_get_any_caller_ann :
  (5 ≠ 0)%Z ∧
  users ann_world !! 5 = Some ann ∧
  (run_view (UserSignView_get anonymous (Some 5)) ann_world).1 =
    Response_ (UserRecord (mkUserData 5 "ann" "ann@x.com" true "LOCAL"))
      (Some HTTP_200_OK).
Proof.
  split; [lia|]. split; [reflexivity|].
  rewrite (UserSignView_get_any_caller anonymous ann_world 5 ann);
    [reflexivity | lia | reflexivity].
Defined.


Lemma UserSignView_get_own_record_ann :
  user_id_of (ann_request ∅) = Some 5 ∧
  users ann_world !! 5 = Some ann ∧
  (run_view (UserSignView_get (ann_request ∅) None) ann_world).1 =
    Response_ (UserRecord (mkUserData 5 "ann" "ann@x.com" true "LOCAL"))
      (Some HTTP_200_OK).
Proof.
  split; [reflexivity|]. split; [reflexivity|].
  rewrite (UserSignView_get_own_record (ann_request ∅) ann_world 5 ann);
    reflexivity.
Defined.


Lemma UserSignView_put_twice_ann :
  user_id_of (ann_request {[ "password" := JStr "Pw123!" ]}) = Some 5 ∧
  users ann_world !! 5 = Some ann ∧
  check_password "Pw123!" (password ann) = true ∧
  ∃ w1 w2 : World,
    run_view (UserSignView_put (ann_request {[ "password" := JStr "Pw123!" ]}))
      ann_world =
      (Response_ (Message "회원탈퇴성공") (Some HTTP_200_OK), w1) ∧
    run_view (UserSignView_put (ann_request {[ "password" := JStr "Pw123!" ]}))
      w1 =
      (Response_ (Message "회원탈퇴성공") (Some HTTP_200_OK), w2) ∧
    users w2 = users w1.
Proof.
  split; [reflexivity|]. split; [reflexivity|]. split; [reflexivity|].
  destruct (UserSignView_put_twice
              (ann_request {[ "password" := JStr "Pw123!" ]}) ann_world 5 ann
              "Pw123!")
    as (w1 & w2 & Hfirst & Hsecond & _ & Hw2);
    [reflexivity | reflexivity | reflexivity | reflexivity |].
  exists w1, w2. split; [exact Hfirst|]. split; [exact Hsecond | exact Hw2].
Defined.


Lemma UserSignView_patch_invalid_ann :
  user_id_of (ann_request ∅) = Some 5 ∧
  users ann_world !! 5 = Some ann ∧
  reject_edit (5, ann) (body (ann_request ∅))
    (emit (EvSelect (ById (Some 5))) ann_world)
    = (Ok (inl edit_rejected), emit (EvSelect (ById (Some 5))) ann_world) ∧
  run_view (UserSignView_patch reject_edit save_edit (ann_request ∅)) ann_world =
    (Response_ (FieldErrors edit_rejected) (Some HTTP_400_BAD_REQUEST),
     emit (EvSelect (ById (Some 5))) ann_world).
Proof.
  split; [reflexivity|]. split; [reflexivity|]. split; [reflexivity|].
  apply (UserSignView_patch_invalid reject_edit save_edit (ann_request ∅)
           ann_world _ 5 ann edit_rejected);
    reflexivity.
Defined.

Lemma UserSignView_put_then_get_ann :
  user_id_of (ann_request {[ "password" := JStr "Pw123!" ]}) = Some 5 ∧
  users ann_world !! 5 = Some ann ∧
  check_password "Pw123!" (password ann) = true ∧
  ∃ w1 w2 : World,
    run_view (UserSignView_put (ann_request {[ "password" := JStr "Pw123!" ]}))
      ann_world =
      (Response_ (Message "회원탈퇴성공") (Some HTTP_200_OK), w1) ∧
    run_view (UserSignView_get (ann_request {[ "password" := JStr "Pw123!" ]})
                None) w1 =
      (Response_
         (UserRecord (mkUserData 5 "ann" "ann@x.com" false "LOCAL"))
         (Some HTTP_200_OK), w2).
Proof.
  split; [reflexivity|]. split; [reflexivity|]. split; [reflexivity|].
  destruct (UserSignView_put_then_get
              (ann_request {[ "password" := JStr "Pw123!" ]}) ann_world 5 ann
              "Pw123!")
    as (w1 & w2 & Hput & Hget & _);
    [reflexivity | reflexivity | reflexivity | reflexivity |].
  exists w1, w2. split; [exact Hput | exact Hget].
Defined.

End Instances.
